(** * A shallow embedding of the pharmaceutical chat agent

    The embedded program is [src/agent/agent.py] together with the three
    tool modules it drives ([src/tools/fda_tool.py],
    [src/tools/neo4j_tool.py], [src/tools/pdf_rag_tool.py]).

    Conventions of the embedding.
    - Python exceptions are values of type [exn]; a computation that may
      raise returns [res A].  [try ... except Exception as e] is
      [try_except].
    - The module-level globals of [agent.py] are the fields of
      [agent_state]; functions that assign them return the new state.
    - Everything that leaves the process (the chat model, HTTP, the graph
      database, the vector store) is a field of the record [World]; all
      theorems quantify over it.  Model responses are indexed by the
      round in which they are requested, tool-side responses by the
      number of the dispatch, so that a [World] describes a fixed
      sequence of model and tool responses.
    - [print] calls are not modelled.
    - Strings are byte strings; they agree with Python's on ASCII text.
    - The [while True] loop of [agent] takes a fuel argument bounding the
      number of iterations; [None] means the bound was reached. *)

From Stdlib Require Import ZArith Ascii String List.
From stdpp Require Import base option list gmap strings pretty.

Local Open Scope string_scope.
Local Open Scope Z_scope.
Set Warnings "-register-all".

(** ** Exceptions and fallible computations *)

Inductive exn : Type :=
  | KeyError (key : string)
  | ValueError (msg : string)
  | TypeError (msg : string)
  | AttributeError (msg : string)
  | FileNotFoundError (msg : string)
  | ValidationError (msg : string)
  | ExternalError (msg : string).

(** [repr(s)] for a string.  The delimiter is the single quote, unless
    the string holds a single quote and no double quote.  A backslash
    and the delimiter are escaped, line feed, carriage return and tab
    have their letter, the other control characters are written in
    hexadecimal; bytes above the ASCII range are kept, as [repr] keeps
    printable characters. *)
Definition hex_digit (n : N) : ascii :=
  if (n <? 10)%N then ascii_of_N (48 + n) else ascii_of_N (87 + n).

Definition repr_char (quote c : ascii) : string :=
  let n := N_of_ascii c in
  if Ascii.eqb c "\" then "\\"
  else if Ascii.eqb c quote then String "\" (String quote EmptyString)
  else if (n =? 10)%N then "\n"
  else if (n =? 13)%N then "\r"
  else if (n =? 9)%N then "\t"
  else if ((n <? 32) || (n =? 127))%N then
    String "\" (String "x"
      (String (hex_digit (n / 16)) (String (hex_digit (n mod 16)) EmptyString)))
  else String c EmptyString.

Definition py_repr (s : string) : string :=
  let chars := list_ascii_of_string s in
  let quote : ascii :=
    if existsb (Ascii.eqb "'") chars && negb (existsb (Ascii.eqb "034") chars)
    then "034"%char else "'"%char in
  String quote
    (String.concat "" (map (repr_char quote) chars)
     ++ String quote EmptyString).

(** [str(e)]: the message, and for a [KeyError] the [repr] of the key. *)
Definition exn_str (e : exn) : string :=
  match e with
  | KeyError k => py_repr k
  | ValueError m | TypeError m | AttributeError m
  | FileNotFoundError m | ValidationError m | ExternalError m => m
  end.

Inductive res (A : Type) : Type :=
  | Ok (a : A)
  | Raise (e : exn).
Arguments Ok {A} a.
Arguments Raise {A} e.

Definition res_bind {A B} (m : res A) (k : A -> res B) : res B :=
  match m with
  | Ok a => k a
  | Raise e => Raise e
  end.

Declare Scope res_scope.
Delimit Scope res_scope with res.
Notation "'let*' x ':=' m 'in' k" := (res_bind m (fun x => k))
  (at level 10, x pattern, m at level 100, k at level 200) : res_scope.
Local Open Scope res_scope.

(** [try: body except Exception as e: handler e] *)
Definition try_except {A} (body : res A) (handler : exn -> res A) : res A :=
  match body with
  | Ok a => Ok a
  | Raise e => handler e
  end.

Definition is_ok {A} (m : res A) : bool :=
  match m with Ok _ => true | Raise _ => false end.

(** Gathering the results of a list of futures: the first failure, in
    list order, is the one that propagates. *)
Fixpoint collect {A} (futs : list (res A)) : res (list A) :=
  match futs with
  | [] => Ok []
  | f :: rest =>
      let* a := f in
      let* l := collect rest in
      Ok (a :: l)
  end.

(** Loop over a list with a fallible body (a [for] loop that appends). *)
Fixpoint for_each {A B} (f : A -> res B) (l : list A) : res (list B) :=
  match l with
  | [] => Ok []
  | a :: rest =>
      let* b := f a in
      let* bs := for_each f rest in
      Ok (b :: bs)
  end.

(** ** Strings *)

Definition upper_ascii (c : ascii) : ascii :=
  let n := N_of_ascii c in
  if ((97 <=? n) && (n <=? 122))%N then ascii_of_N (n - 32) else c.

(** [s.upper()] on the ASCII range; other bytes are left as they are. *)
Fixpoint upper (s : string) : string :=
  match s with
  | EmptyString => EmptyString
  | String c rest => String (upper_ascii c) (upper rest)
  end.

(** [needle in haystack] for two [str] values. *)
Fixpoint str_contains (needle haystack : string) : bool :=
  String.prefix needle haystack ||
  match haystack with
  | EmptyString => false
  | String _ rest => str_contains needle rest
  end.

Definition str_chars (s : string) : list string :=
  map (fun c => String c EmptyString) (list_ascii_of_string s).

(** ** JSON values, as [response.json()] and [json.dumps] see them *)

Inductive json : Type :=
  | JNull
  | JBool (b : bool)
  | JNum (z : Z)
  | JStr (s : string)
  | JArr (items : list json)
  | JObj (fields : list (string * json)).

Fixpoint assoc {A} (k : string) (fs : list (string * A)) : option A :=
  match fs with
  | [] => None
  | (k', v) :: rest => if String.eqb k k' then Some v else assoc k rest
  end.

(** [d.get(k, default)]: only a dict has the method. *)
Definition dict_get (d : json) (k : string) (dflt : json) : res json :=
  match d with
  | JObj fs => Ok (default dflt (assoc k fs))
  | _ => Raise (AttributeError "object has no attribute 'get'")
  end.

(** [for x in v]: a list yields its items, a dict its keys, a string its
    characters; nothing else is iterable. *)
Definition py_iter (v : json) : res (list json) :=
  match v with
  | JArr items => Ok items
  | JObj fs => Ok (map (fun kv => JStr (fst kv)) fs)
  | JStr s => Ok (map JStr (str_chars s))
  | _ => Raise (TypeError "object is not iterable")
  end.

Definition is_jstr (k : string) (v : json) : bool :=
  match v with
  | JStr s => String.eqb k s
  | _ => false
  end.

(** [k in v] for a string literal [k]: key test on a dict, substring test
    on a string, element test on a list. *)
Definition py_in (k : string) (v : json) : res bool :=
  match v with
  | JObj fs => Ok (bool_decide (is_Some (assoc k fs)))
  | JStr s => Ok (str_contains k s)
  | JArr items => Ok (existsb (is_jstr k) items)
  | _ => Raise (TypeError "argument is not iterable")
  end.

(** [v[k]] for a string literal [k]. *)
Definition subscript (v : json) (k : string) : res json :=
  match v with
  | JObj fs =>
      match assoc k fs with
      | Some x => Ok x
      | None => Raise (KeyError k)
      end
  | _ => Raise (TypeError "indices must be integers or object is not subscriptable")
  end.

(** ** The records that stand for third-party client objects

    Constructing one of these clients performs no input or output; what
    they do when used is described by [World] below. *)

Record ChatOpenAI := mkChatOpenAI {
  co_model : string;
  co_api_key : option string }.

Record OpenAIEmbeddings := mkOpenAIEmbeddings {
  emb_model : string;
  emb_api_key : option string }.

Record Driver := mkDriver {
  drv_uri : option string;
  drv_auth : option string * option string }.

Record Neo4jGraph := mkNeo4jGraph {
  g_url : option string;
  g_username : option string;
  g_password : option string }.

Record GraphCypherQAChain := mkChain {
  ch_llm : ChatOpenAI;
  ch_graph : Neo4jGraph }.

Record FAISS := mkFAISS {
  vs_path : string;
  vs_embedding : option OpenAIEmbeddings }.

Record Document := mkDocument {
  page_content : string;
  metadata : json }.

(** ** Messages *)

Record tool_call := mkToolCall {
  tc_name : string;
  tc_args : list (string * json);
  tc_id : string }.

Record AIMessage := mkAIMessage {
  ai_content : string;
  ai_tool_calls : list tool_call }.

Record ToolMessage := mkToolMessage {
  tm_content : string;
  tm_tool_call_id : string }.

Inductive message : Type :=
  | System (content : string)
  | Human (content : string)
  | AI (m : AIMessage)
  | Tool (m : ToolMessage).

(** ** The outside world *)

Record World := mkWorld {
  (* model_with_tools.invoke(formatted_messages): the chat client, the
     names of the bound tools, the round, the formatted history *)
  w_chat : ChatOpenAI -> list string -> nat -> list message -> res AIMessage;
  (* argument validation done by tool.invoke against the declared
     signature, per tool name *)
  w_bind_fda : list (string * json) -> res (string * Z);
  w_bind_question : string -> list (string * json) -> res string;
  (* requests.get(url) followed by response.json() *)
  w_http_get_json : nat -> string -> res json;
  (* json.dumps(value, indent=2) *)
  w_json_dumps : json -> res string;
  (* str() of a value that is not itself a string *)
  w_repr : json -> string;
  (* os.path.exists, and the two directories derived from __file__ *)
  w_path_exists : string -> bool;
  w_src_dir : string;
  w_agent_dir : string;
  (* PyPDFLoader + splitter + FAISS.from_documents *)
  w_build_vector_store : string -> option OpenAIEmbeddings -> res unit;
  w_similarity_search : FAISS -> nat -> string -> res (list Document);
  (* the answering model of the PDF tool, given question and context *)
  w_rag_llm : ChatOpenAI -> nat -> string -> string -> res string;
  (* the graph database client *)
  w_driver : option string -> option string * option string -> res unit;
  w_verify_connectivity : Driver -> res unit;
  w_graph : option string -> option string -> option string -> res unit;
  w_chain_from_llm : ChatOpenAI -> Neo4jGraph -> res unit;
  w_chain_invoke : GraphCypherQAChain -> nat -> string -> res json }.

(** [str(v)] *)
Definition py_str (w : World) (v : json) : string :=
  match v with
  | JStr s => s
  | _ => w_repr w v
  end.

(** ** [tools/fda_tool.py] *)

Module FdaTool.

Definition url (drug_name : string) (limit : Z) : string :=
  "https://api.fda.gov/drug/event.json?"
  ++ "search=patient.drug.medicinalproduct:" ++ drug_name
  ++ "&limit=" ++ pretty limit ++ "&sort=receivedate:desc".

Definition NA : json := JStr "N/A".

(** One pass of the inner loop over [result["patient"]["drug"]]: the
    names to append for this entry. *)
Definition drug_entry (drug : json) : res (list json) :=
  let* name := dict_get drug "medicinalproduct" NA in
  match name with
  | JStr s =>
      Ok (if str_contains "TRAMADOL" (upper s) then [name] else [])
  | _ => Raise (AttributeError "object has no attribute 'upper'")
  end.

Definition reaction_entry (reaction : json) : res (json * json) :=
  let* r := dict_get reaction "reactionmeddrapt" NA in
  let* o := dict_get reaction "reactionoutcome" NA in
  Ok (r, o).

(** [if "patient" in result and k in result["patient"]] followed by the
    iteration over [result["patient"][k]]; [[]] when the test fails. *)
Definition patient_items (result : json) (k : string) : res (list json) :=
  let* has_patient := py_in "patient" result in
  if has_patient then
    let* patient := subscript result "patient" in
    let* has_k := py_in k patient in
    if has_k then
      let* patient' := subscript result "patient" in
      let* v := subscript patient' k in
      py_iter v
    else Ok []
  else Ok [].

(** The body of the outer loop: the dict appended to [useful_data]. *)
Definition extract (result : json) : res json :=
  let* receivedate := dict_get result "receivedate" NA in
  let* safetyreportid := dict_get result "safetyreportid" NA in
  let* drugs := patient_items result "drug" in
  let* names := for_each drug_entry drugs in
  let drug_names := concat names in
  let* reacts := patient_items result "reaction" in
  let* pairs := for_each reaction_entry reacts in
  let reactions := map fst pairs in
  let outcomes := map snd pairs in
  Ok (JObj [ ("receivedate", receivedate);
             ("safetyreportid", safetyreportid);
             ("drug_names", JArr drug_names);
             ("reactions", JArr reactions);
             ("outcomes", JArr outcomes) ]).

Definition get_adverse_events (w : World) (tick : nat)
    (drug_name : string) (limit : Z) : res (list json) :=
  let* response := w_http_get_json w tick (url drug_name limit) in
  let* results := dict_get response "results" (JArr []) in
  let* items := py_iter results in
  for_each extract items.

End FdaTool.

Definition nl : string := String "010"%char EmptyString.

(** [value or ...] and [if not value] on an optional string: [None] and
    the empty string are false. *)
Definition truthy (o : option string) : bool :=
  match o with
  | Some s => negb (String.eqb s "")
  | None => false
  end.

(** ** [tools/neo4j_tool.py] *)

Module Neo4jTool.

Record t := mk {
  URI : option string;
  AUTH : option string * option string;
  driver : option Driver;
  graph : option Neo4jGraph;
  chain : option GraphCypherQAChain }.

(** [__init__]: reads the connection parameters from the environment. *)
Definition new (environ : gmap string string) : t :=
  {| URI := environ !! "NEO4J_URI";
     AUTH := (environ !! "NEO4J_USERNAME", environ !! "NEO4J_PASSWORD");
     driver := None; graph := None; chain := None |}.

Definition set_driver (self : t) (d : Driver) : t :=
  {| URI := URI self; AUTH := AUTH self; driver := Some d;
     graph := graph self; chain := chain self |}.

Definition set_graph (self : t) (g : Neo4jGraph) : t :=
  {| URI := URI self; AUTH := AUTH self; driver := driver self;
     graph := Some g; chain := chain self |}.

Definition set_chain (self : t) (c : GraphCypherQAChain) : t :=
  {| URI := URI self; AUTH := AUTH self; driver := driver self;
     graph := graph self; chain := Some c |}.

(** [connect]: every failure is caught inside and reported as [False];
    the attributes assigned before the failure stay assigned. *)
Definition connect (w : World) (self : t) : bool * t :=
  match w_driver w (URI self) (AUTH self) with
  | Raise _ => (false, self)
  | Ok _ =>
      let d := mkDriver (URI self) (AUTH self) in
      let self1 := set_driver self d in
      match w_verify_connectivity w d with
      | Raise _ => (false, self1)
      | Ok _ =>
          match w_graph w (URI self) (fst (AUTH self)) (snd (AUTH self)) with
          | Raise _ => (false, self1)
          | Ok _ =>
              (true, set_graph self1
                       (mkNeo4jGraph (URI self) (fst (AUTH self))
                                     (snd (AUTH self))))
          end
      end
  end.

Definition initialize_qa_chain (w : World) (environ : gmap string string)
    (self : t) (openai_api_key : option string) : bool * t :=
  match graph self with
  | None => (false, self)
  | Some g =>
      let api_key :=
        if truthy openai_api_key then openai_api_key
        else environ !! "OPENAI_API_KEY" in
      if negb (truthy api_key) then (false, self)
      else
        let llm := mkChatOpenAI "gpt-3.5-turbo" api_key in
        match w_chain_from_llm w llm g with
        | Raise _ => (false, self)
        | Ok _ => (true, set_chain self (mkChain llm g))
        end
  end.

Definition ask_question (w : World) (tick : nat) (self : t)
    (question : string) : json :=
  match chain self with
  | None => JStr "Error: QA chain not initialized"
  | Some c =>
      match w_chain_invoke w c tick question with
      | Ok result => result
      | Raise e => JStr ("Error: " ++ exn_str e)
      end
  end.

(** [close]: the driver, when there is one, is asked to close; what that
    does is the argument [driver_close]. *)
Definition close (driver_close : Driver -> res unit) (self : t) : res unit :=
  match driver self with
  | Some d => driver_close d
  | None => Ok tt
  end.

End Neo4jTool.

(** ** [tools/pdf_rag_tool.py] *)

Module PDFTool.

Record t := mk {
  vector_store : option FAISS;
  embeddings : option OpenAIEmbeddings;
  llm : option ChatOpenAI }.

Definition _initialize_components (environ : gmap string string)
    (self : t) : t :=
  let e :=
    match embeddings self with
    | Some e => Some e
    | None =>
        Some (mkOpenAIEmbeddings "text-embedding-3-large"
                (environ !! "OPENAI_API_KEY"))
    end in
  let l :=
    match llm self with
    | Some l => Some l
    | None => Some (mkChatOpenAI "gpt-4" (environ !! "OPENAI_API_KEY"))
    end in
  {| vector_store := vector_store self; embeddings := e; llm := l |}.

Definition new (environ : gmap string string) : t :=
  _initialize_components environ
    {| vector_store := None; embeddings := None; llm := None |}.

(** [create_vector_store]: both handlers re-raise; the store is assigned
    only when loading, splitting and indexing all succeed. *)
Definition create_vector_store (w : World) (self : t) (pdf_path : string)
    : res t :=
  match w_build_vector_store w pdf_path (embeddings self) with
  | Ok _ =>
      Ok {| vector_store := Some (mkFAISS pdf_path (embeddings self));
            embeddings := embeddings self; llm := llm self |}
  | Raise e => Raise e
  end.

Definition search_text (w : World) (tick : nat) (self : t)
    (question : string) : res (list Document * string) :=
  match vector_store self with
  | None =>
      Raise (ValueError
        "Vector store not initialized. Call create_vector_store() first.")
  | Some vs =>
      match llm self with
      | None => Raise (ValueError "LLM not initialized.")
      | Some l =>
          let* retrieved_docs := w_similarity_search w vs tick question in
          let docs_content :=
            String.concat (nl ++ nl) (map page_content retrieved_docs) in
          let* answer := w_rag_llm w l tick question docs_content in
          Ok (retrieved_docs, answer)
      end
  end.

End PDFTool.

(** ** [agent/agent.py]: globals and tools *)

Inductive tool : Type :=
  | Tool_fda
  | Tool_neo4j
  | Tool_pdf.

Global Instance tool_eq_dec : EqDecision tool.
Proof. solve_decision. Defined.

(** [tool.name]: the name of the decorated function. *)
Definition tool_name (t : tool) : string :=
  match t with
  | Tool_fda => "fda_adverse_events_tool"
  | Tool_neo4j => "neo4j_query_tool"
  | Tool_pdf => "pdf_search_tool"
  end.

(** The module-level globals, and [os.environ]. *)
Record agent_state := mkState {
  neo4j_tool : option Neo4jTool.t;
  pdf_tool : option PDFTool.t;
  model : option ChatOpenAI;
  tools : list tool;
  tools_by_name : gmap string tool;
  _initialized : bool;
  environ : gmap string string }.

(** The state of a freshly imported module. *)
Definition module_state (env : gmap string string) : agent_state :=
  {| neo4j_tool := None; pdf_tool := None; model := None; tools := [];
     tools_by_name := ∅; _initialized := false; environ := env |}.

Definition fda_adverse_events_tool (w : World) (tick : nat)
    (drug_name : string) (limit : Z) : res string :=
  try_except
    (let* results := FdaTool.get_adverse_events w tick drug_name limit in
     w_json_dumps w (JArr results))
    (fun e => Ok ("Error retrieving FDA data: " ++ exn_str e)).

Definition neo4j_query_tool (w : World) (st : agent_state) (tick : nat)
    (question : string) : res string :=
  try_except
    (match neo4j_tool st with
     | None => Ok "Error: Neo4j tool not initialized"
     | Some nt =>
         let result := Neo4jTool.ask_question w tick nt question in
         Ok (py_str w result)
     end)
    (fun e => Ok ("Error querying Neo4j: " ++ exn_str e)).

Definition serializable_doc (doc : Document) : json :=
  JObj [ ("page_content", JStr (page_content doc));
         ("metadata", metadata doc) ].

Definition pdf_search_tool (w : World) (st : agent_state) (tick : nat)
    (question : string) : res string :=
  try_except
    (match pdf_tool st with
     | None =>
         Ok "Error: PDF tool not initialized. Please check the initialization logs."
     | Some pt =>
         match PDFTool.vector_store pt with
         | None =>
             Ok "Error: PDF vector store not initialized. The PDF file may not have been loaded successfully during initialization."
         | Some _ =>
             let* (docs, answer) := PDFTool.search_text w tick pt question in
             let serializable_docs := map serializable_doc docs in
             let result :=
               JObj [ ("retrieved_documents", JArr serializable_docs);
                      ("answer", JStr answer);
                      ("total_documents", JNum (Z.of_nat (length docs))) ] in
             w_json_dumps w result
         end
     end)
    (fun e => Ok ("Error searching PDF: " ++ exn_str e)).

(** [tool.invoke(args)]: the arguments are validated against the declared
    signature, then the decorated function runs. *)
Definition tool_invoke (w : World) (st : agent_state) (tick : nat)
    (t : tool) (args : list (string * json)) : res string :=
  match t with
  | Tool_fda =>
      let* (drug_name, limit) := w_bind_fda w args in
      fda_adverse_events_tool w tick drug_name limit
  | Tool_neo4j =>
      let* question := w_bind_question w (tool_name t) args in
      neo4j_query_tool w st tick question
  | Tool_pdf =>
      let* question := w_bind_question w (tool_name t) args in
      pdf_search_tool w st tick question
  end.

(** ** [reset_agent] and [initialize_agent_with_config] *)

(** [reset_agent]: the graph tool, when there is one, is closed first; an
    exception raised there leaves the function before any global is
    reassigned. *)
Definition reset_agent (driver_close : Driver -> res unit)
    (st : agent_state) : res agent_state :=
  let* _ :=
    match neo4j_tool st with
    | Some nt => Neo4jTool.close driver_close nt
    | None => Ok tt
    end in
  Ok (module_state (environ st)).

Definition ends_with_slash (s : string) : bool :=
  match last (list_ascii_of_string s) with
  | Some c => Ascii.eqb c "/"
  | None => false
  end.

(** [os.path.join a b] for a relative [b]. *)
Definition path_join (a b : string) : string :=
  if String.eqb a "" || ends_with_slash a then a ++ b else a ++ "/" ++ b.

Definition possible_paths (w : World) : list string :=
  [ "./tools/pdf_data/report_2023_2024.pdf";
    foldl path_join (w_src_dir w)
      ["tools"; "pdf_data"; "report_2023_2024.pdf"];
    foldl path_join (w_agent_dir w)
      [".."; "tools"; "pdf_data"; "report_2023_2024.pdf"] ].

(** The [try] block that builds the vector store; the handler only
    prints, so a failure leaves [pdf_tool] as constructed. *)
Definition init_pdf (w : World) (pt : PDFTool.t) : PDFTool.t :=
  let attempt :=
    match find (w_path_exists w) (possible_paths w) with
    | None =>
        Raise (FileNotFoundError "PDF file not found in any expected location")
    | Some pdf_path => PDFTool.create_vector_store w pt pdf_path
    end in
  match attempt with
  | Ok pt' => pt'
  | Raise _ => pt
  end.

(** The [try] block that connects the graph tool. *)
Definition init_neo4j (w : World) (env : gmap string string)
    (nt : Neo4jTool.t) : Neo4jTool.t :=
  let nt1 := snd (Neo4jTool.connect w nt) in
  snd (Neo4jTool.initialize_qa_chain w env nt1 None).

Definition registry (ts : list tool) : gmap string tool :=
  foldl (fun m t => <[tool_name t := t]> m) ∅ ts.

(** [has_nul s]: the string holds a NUL byte. *)
Definition has_nul (s : string) : bool :=
  existsb (Ascii.eqb "000") (list_ascii_of_string s).

(** [os.environ[key] = value]: a value with an embedded NUL byte is
    refused with a [ValueError]. *)
Definition environ_set (key value : string) (env : gmap string string)
    : res (gmap string string) :=
  if has_nul value then Raise (ValueError "embedded null byte")
  else Ok (<[key := value]> env).

Definition with_environ (st : agent_state) (env : gmap string string)
    : agent_state :=
  {| neo4j_tool := neo4j_tool st; pdf_tool := pdf_tool st;
     model := model st; tools := tools st;
     tools_by_name := tools_by_name st; _initialized := _initialized st;
     environ := env |}.

(** The function returns how it ended and the globals it leaves: the
    four assignments to the environment are outside any [try], so one of
    them can raise after the earlier ones took effect. *)
Definition initialize_agent_with_config (w : World)
    (openai_api_key neo4j_uri neo4j_username neo4j_password : string)
    (st : agent_state) : res unit * agent_state :=
  if _initialized st then (Ok tt, st)
  else
    match environ_set "OPENAI_API_KEY" openai_api_key (environ st) with
    | Raise e => (Raise e, st)
    | Ok env1 =>
    match environ_set "NEO4J_URI" neo4j_uri env1 with
    | Raise e => (Raise e, with_environ st env1)
    | Ok env2 =>
    match environ_set "NEO4J_USERNAME" neo4j_username env2 with
    | Raise e => (Raise e, with_environ st env2)
    | Ok env3 =>
    match environ_set "NEO4J_PASSWORD" neo4j_password env3 with
    | Raise e => (Raise e, with_environ st env3)
    | Ok env =>
        let nt := Neo4jTool.new env in
        let pt := PDFTool.new env in
        let pt' := init_pdf w pt in
        let nt' := init_neo4j w env nt in
        let ts := [Tool_fda; Tool_neo4j; Tool_pdf] in
        (Ok tt,
         {| neo4j_tool := Some nt';
            pdf_tool := Some pt';
            model := Some (mkChatOpenAI "gpt-4" (Some openai_api_key));
            tools := ts;
            tools_by_name := registry ts;
            _initialized := true;
            environ := env |})
    end end end end.

(** ** The tasks [call_model] and [call_tool] *)

Definition system_prompt : string :=
"You are a helpful AI assistant with access to three specialized tools:

1. FDA Adverse Events Tool: Get adverse events data for drugs from the FDA database
2. Neo4j Knowledge Graph Tool: Query a pharmaceutical knowledge graph with natural language
3. PDF Search Tool: Search and answer questions about a pharmaceutical company report

When a user asks a question, think about which tool(s) would be most helpful to answer it.
You can use multiple tools if needed to provide a comprehensive answer.

Always provide clear, helpful responses and explain what information you found.".

(** [round] counts the model invocations already made in this turn. *)
Definition call_model (w : World) (st : agent_state) (round : nat)
    (messages : list message) : res AIMessage :=
  match model st with
  | None =>
      Raise (ValueError
        "Model not initialized. Call initialize_agent_with_config() first.")
  | Some m =>
      let formatted_messages := System system_prompt :: messages in
      w_chat w m (map tool_name (tools st)) round formatted_messages
  end.

(** [tick] counts the dispatches already made in this turn. *)
Definition call_tool (w : World) (st : agent_state) (tick : nat)
    (tc : tool_call) : res ToolMessage :=
  if decide (tools_by_name st = ∅) then
    Raise (ValueError
      "Tools not initialized. Call initialize_agent_with_config() first.")
  else
    match tools_by_name st !! tc_name tc with
    | None => Raise (KeyError (tc_name tc))
    | Some t =>
        let* observation := tool_invoke w st tick t (tc_args tc) in
        Ok (mkToolMessage observation (tc_id tc))
    end.

(** ** The entrypoint [agent] *)

(** One item of [agent.stream]: the name of the task that finished and
    what it returned. *)
Record step := mkStep {
  step_task : string;
  step_message : message }.

(** What one execution of the entrypoint leaves behind: the items it
    streamed, the local [messages] list, how it ended, and how many model
    invocations and tool dispatches it started. *)
Record run := mkRun {
  steps : list step;
  history : list message;
  outcome : res AIMessage;
  model_calls : nat;
  dispatches : nat }.

(** The reducer used by the loop; the messages it is given here carry
    fresh identifiers, for which it appends. *)
Definition add_messages (left right : list message) : list message :=
  (left ++ right)%list.

(** [[call_tool(tool_call) for tool_call in llm_response.tool_calls]]:
    every request of the batch is dispatched. *)
Fixpoint dispatch (w : World) (st : agent_state) (tick : nat)
    (calls : list tool_call) : list (res ToolMessage) :=
  match calls with
  | [] => []
  | tc :: rest => call_tool w st tick tc :: dispatch w st (S tick) rest
  end.

(** The stream items of the dispatches of a batch that returned.  (When
    another dispatch of the batch raises, which of these the framework
    still streams is its own choice; they are [tool_execution] events in
    any case.) *)
Fixpoint tool_steps (futs : list (res ToolMessage)) : list step :=
  match futs with
  | [] => []
  | Ok m :: rest => mkStep "call_tool" (Tool m) :: tool_steps rest
  | Raise _ :: rest => tool_steps rest
  end.

Fixpoint agent_loop (fuel : nat) (w : World) (st : agent_state)
    (emitted : list step) (round tick : nat)
    (messages : list message) (llm_response : AIMessage) : option run :=
  match fuel with
  | O => None
  | S fuel' =>
      match ai_tool_calls llm_response with
      | [] =>
          Some (mkRun (emitted ++ [mkStep "agent" (AI llm_response)])%list
                  messages (Ok llm_response) round tick)
      | _ :: _ =>
          let tool_result_futures :=
            dispatch w st tick (ai_tool_calls llm_response) in
          let tick' := (tick + length (ai_tool_calls llm_response))%nat in
          let emitted' := (emitted ++ tool_steps tool_result_futures)%list in
          match collect tool_result_futures with
          | Raise e => Some (mkRun emitted' messages (Raise e) round tick')
          | Ok tool_results =>
              let messages' :=
                add_messages messages
                  (AI llm_response :: map Tool tool_results) in
              match call_model w st round messages' with
              | Raise e =>
                  Some (mkRun emitted' messages' (Raise e) (S round) tick')
              | Ok llm_response' =>
                  agent_loop fuel' w st
                    (emitted' ++ [mkStep "call_model" (AI llm_response')])%list
                    (S round) tick' messages' llm_response'
              end
          end
      end
  end.

Definition agent (fuel : nat) (w : World) (st : agent_state)
    (messages : list message) : option run :=
  match call_model w st 0 messages with
  | Raise e => Some (mkRun [] messages (Raise e) 1 0)
  | Ok llm_response =>
      agent_loop fuel w st [mkStep "call_model" (AI llm_response)]
        1 0 messages llm_response
  end.

(** ** [run_agent] *)

Record config := mkConfig {
  openai_api_key : option string;
  neo4j_uri : option string;
  neo4j_username : option string;
  neo4j_password : option string }.

(** [all([openai_api_key, neo4j_uri, neo4j_username, neo4j_password])] *)
Definition all_config (c : config) : bool :=
  forallb truthy
    [openai_api_key c; neo4j_uri c; neo4j_username c; neo4j_password c].

(** An optional parameter read as the string it holds. *)
Definition given (o : option string) : string := default "" o.

Definition not_initialized_error : string :=
  "Error: Agent not initialized. Please provide all configuration parameters.".

(** The test and the initialization at the head of both entry points:
    [None] is the branch that reports the missing configuration;
    otherwise how setup ended, if it ran, and the globals it leaves. *)
Definition ensure_initialized (w : World) (c : config) (st : agent_state)
    : option (res unit * agent_state) :=
  if all_config c && negb (_initialized st) then
    Some (initialize_agent_with_config w
            (given (openai_api_key c)) (given (neo4j_uri c))
            (given (neo4j_username c)) (given (neo4j_password c)) st)
  else if negb (_initialized st) then None
  else Some (Ok tt, st).

(** What a turn returns to its caller, with the counters of the
    execution it ran (both zero when none was started). *)
Record turn (A : Type) := mkTurn {
  returned : A;
  state_after : agent_state;
  turn_model_calls : nat;
  turn_dispatches : nat }.
Arguments mkTurn {A}.
Arguments returned {A}.
Arguments state_after {A}.
Arguments turn_model_calls {A}.
Arguments turn_dispatches {A}.

Definition run_agent (fuel : nat) (w : World) (question : string)
    (c : config) (st : agent_state) : option (turn string) :=
  match ensure_initialized w c st with
  | None => Some (mkTurn not_initialized_error st 0 0)%nat
  | Some (Raise e, st') =>
      Some (mkTurn ("Error running agent: " ++ exn_str e) st' 0 0)%nat
  | Some (Ok _, st') =>
      let user_message := Human question in
      match agent fuel w st' [user_message] with
      | None => None
      | Some r =>
          let answer :=
            match outcome r with
            | Ok result => ai_content result
            | Raise e => "Error running agent: " ++ exn_str e
            end in
          Some (mkTurn answer st' (model_calls r) (dispatches r))
      end
  end.

(** ** [run_agent_with_streaming] *)

Record StepEvent := mkEvent {
  task_name : string;
  content : string;
  step_type : string;
  is_final : bool }.

Definition message_content (m : message) : string :=
  match m with
  | System c | Human c => c
  | AI a => ai_content a
  | Tool t => tm_content t
  end.

Definition tool_call_info (w : World) (tc : tool_call) : string :=
  "Tool: " ++ tc_name tc ++ nl ++ "Arguments: " ++ w_repr w (JObj (tc_args tc)).

(** The body of the inner [for] loop: [None] is the [continue] taken for
    the entrypoint's own item. *)
Definition step_event (w : World) (s : step) : option StepEvent :=
  let message := step_message s in
  if String.eqb (step_task s) "agent" then None
  else if String.eqb (step_task s) "call_model" then
    match message with
    | AI a =>
        if (0 <? length (ai_tool_calls a))%nat then
          let tool_calls_info := map (tool_call_info w) (ai_tool_calls a) in
          Some (mkEvent (step_task s)
                  ("🤔 Thinking and deciding which tools to use..."
                   ++ nl ++ nl ++ String.concat (nl ++ nl) tool_calls_info)
                  "tool_decision" false)
        else
          Some (mkEvent (step_task s) (ai_content a) "final_answer" true)
    | _ =>
        Some (mkEvent (step_task s) (message_content message)
                "final_answer" true)
    end
  else if String.eqb (step_task s) "call_tool" then
    Some (mkEvent (step_task s)
            ("🔧 Executing tool..." ++ nl ++ nl ++ "Result:" ++ nl
             ++ message_content message)
            "tool_execution" false)
  else Some (mkEvent (step_task s) "" "model_call" false).

Definition error_event (msg : string) : StepEvent :=
  mkEvent "error" msg "error" true.

(** The events yielded while iterating [agent.stream], followed by the
    one the [except] clause yields when the iteration raises. *)
Definition stream_events (w : World) (r : run) : list StepEvent :=
  let yielded := omap (step_event w) (steps r) in
  match outcome r with
  | Ok _ => yielded
  | Raise e =>
      (yielded ++ [error_event ("Error running agent: " ++ exn_str e)])%list
  end.

Definition run_agent_with_streaming (fuel : nat) (w : World)
    (question : string) (c : config) (st : agent_state)
    : option (turn (list StepEvent)) :=
  match ensure_initialized w c st with
  | None => Some (mkTurn [error_event not_initialized_error] st 0 0)%nat
  | Some (Raise e, st') =>
      Some (mkTurn [error_event ("Error running agent: " ++ exn_str e)]
              st' 0 0)%nat
  | Some (Ok _, st') =>
      let user_message := Human question in
      match agent fuel w st' [user_message] with
      | None => None
      | Some r =>
          Some (mkTurn (stream_events w r) st' (model_calls r) (dispatches r))
      end
  end.

(** ** Properties of requests used in the statements *)

(** Whether [tool.invoke] accepts the arguments of a request. *)
Definition validates (w : World) (t : tool) (args : list (string * json))
    : bool :=
  match t with
  | Tool_fda => is_ok (w_bind_fda w args)
  | Tool_neo4j | Tool_pdf => is_ok (w_bind_question w (tool_name t) args)
  end.

(** A request names a registered tool and carries arguments its
    signature accepts. *)
Definition dispatchable (w : World) (st : agent_state) (tc : tool_call)
    : Prop :=
  exists t, tools_by_name st !! tc_name tc = Some t
            /\ validates w t (tc_args tc) = true.

(** The callable behind a registered tool raises [e] during the dispatch
    numbered [tick]: the HTTP lookup for the safety-event tool, the QA
    chain for the graph tool, the retrieval pipeline for the PDF tool. *)
Inductive callable_raises (w : World) (st : agent_state) (tick : nat)
    : tool -> list (string * json) -> exn -> Prop :=
  | fda_raises args drug_name limit e :
      w_bind_fda w args = Ok (drug_name, limit) ->
      FdaTool.get_adverse_events w tick drug_name limit = Raise e ->
      callable_raises w st tick Tool_fda args e
  | neo4j_raises args question nt c e :
      w_bind_question w (tool_name Tool_neo4j) args = Ok question ->
      neo4j_tool st = Some nt ->
      Neo4jTool.chain nt = Some c ->
      w_chain_invoke w c tick question = Raise e ->
      callable_raises w st tick Tool_neo4j args e
  | pdf_raises args question pt vs e :
      w_bind_question w (tool_name Tool_pdf) args = Ok question ->
      pdf_tool st = Some pt ->
      PDFTool.vector_store pt = Some vs ->
      PDFTool.search_text w tick pt question = Raise e ->
      callable_raises w st tick Tool_pdf args e.



(** The environment left by [initialize_agent_with_config]. *)
Definition configured_env (k u n p : string) (env : gmap string string)
    : gmap string string :=
  <["NEO4J_PASSWORD" := p]>
    (<["NEO4J_USERNAME" := n]>
       (<["NEO4J_URI" := u]> (<["OPENAI_API_KEY" := k]> env))).

(** The text a turn hands to its caller for a given end of the loop. *)
Definition answer_of (o : res AIMessage) : string :=
  match o with
  | Ok result => ai_content result
  | Raise e => "Error running agent: " ++ exn_str e
  end.

(** An event that neither ends the stream nor reports an error. *)
Definition intermediate (ev : StepEvent) : Prop :=
  is_final ev = false /\ step_type ev <> "error".

(** The event that ends the stream for a given end of the loop. *)
Definition closing_event (o : res AIMessage) : StepEvent :=
  match o with
  | Ok result => mkEvent "call_model" (ai_content result) "final_answer" true
  | Raise e => error_event ("Error running agent: " ++ exn_str e)
  end.

(** ** Concrete worlds for the examples *)

Module Fixture.

Definition bind_fda (args : list (string * json)) : res (string * Z) :=
  match assoc "drug_name" args with
  | Some (JStr d) =>
      Ok (d, match assoc "limit" args with Some (JNum l) => l | _ => 10 end)
  | _ => Raise (ValidationError "drug_name: field required")
  end.

Definition bind_question (_ : string) (args : list (string * json))
    : res string :=
  match assoc "question" args with
  | Some (JStr q) => Ok q
  | _ => Raise (ValidationError "question: field required")
  end.

(** A chat model that replays a fixed list of responses. *)
Definition scripted (script : list AIMessage) (round : nat)
    : res AIMessage :=
  match script !! round with
  | Some a => Ok a
  | None => Raise (ExternalError "no more scripted responses")
  end.

Definition unreachable {A} : res A := Raise (ExternalError "connection refused").

(** A world in which the chat model answers from [script], HTTP requests
    return [http], and the PDF file, the graph database and the vector
    index cannot be reached. *)
Definition offline (script : list AIMessage) (http : res json) : World :=
  {| w_chat := fun _ _ round _ => scripted script round;
     w_bind_fda := bind_fda;
     w_bind_question := bind_question;
     w_http_get_json := fun _ _ => http;
     w_json_dumps := fun _ => Ok "<json>";
     w_repr := fun _ => "<repr>";
     w_path_exists := fun _ => false;
     w_src_dir := "/app/src";
     w_agent_dir := "/app/src/agent";
     w_build_vector_store := fun _ _ => unreachable;
     w_similarity_search := fun _ _ _ => unreachable;
     w_rag_llm := fun _ _ _ _ => unreachable;
     w_driver := fun _ _ => unreachable;
     w_verify_connectivity := fun _ => unreachable;
     w_graph := fun _ _ _ => unreachable;
     w_chain_from_llm := fun _ _ => unreachable;
     w_chain_invoke := fun _ _ _ => unreachable |}.

Definition full_config : config :=
  mkConfig (Some "sk-test") (Some "bolt://localhost:7687")
           (Some "neo4j") (Some "secret").

Definition no_password : config :=
  mkConfig (Some "sk-test") (Some "bolt://localhost:7687")
           (Some "neo4j") None.


Definition ask_fda (drug : string) (id : string) : tool_call :=
  mkToolCall "fda_adverse_events_tool" [("drug_name", JStr drug)] id.

Definition ask_graph (id : string) : tool_call :=
  mkToolCall "neo4j_query_tool" [("question", JStr "Which drugs?")] id.

Definition ask_pdf (id : string) : tool_call :=
  mkToolCall "pdf_search_tool" [("question", JStr "Revenue?")] id.

Definition ask_unknown (id : string) : tool_call :=
  mkToolCall "no_such_tool" [] id.

Definition final (answer : string) : AIMessage := mkAIMessage answer [].

Definition requesting (calls : list tool_call) : AIMessage :=
  mkAIMessage "" calls.

(** The state after configuring in the offline world. *)
Definition ready : agent_state :=
  snd (initialize_agent_with_config (offline [] unreachable)
         "sk-test" "bolt://localhost:7687" "neo4j" "secret"
         (module_state ∅)).

(** One report as the adverse-event API returns it. *)
Definition report (product : string) : json :=
  JObj [ ("receivedate", JStr "20240105");
         ("safetyreportid", JStr "23456789");
         ("patient",
           JObj [ ("drug", JArr [ JObj [("medicinalproduct", JStr product)] ]);
                  ("reaction",
                    JArr [ JObj [("reactionmeddrapt", JStr "Nausea")] ]) ]) ].

Definition api_response (product : string) : json :=
  JObj [ ("results", JArr [report product]) ].

(** The offline world with no scripted response. *)
Definition quiet : World := offline [] unreachable.

Definition two_requests : AIMessage :=
  requesting [ask_fda "TRAMADOL" "call_1"; ask_graph "call_2"].

(** A turn of two rounds: one batch of two requests, then the answer. *)
Definition two_rounds : World :=
  offline [two_requests; final "No events were retrieved."] unreachable.

(** A batch in which a registered tool stands next to a name that is
    not registered. *)
Definition mixed_requests : AIMessage :=
  requesting [ask_fda "TRAMADOL" "call_1"; ask_unknown "call_2"].

(** A turn that opens with that batch. *)
Definition mixed_turn : World :=
  offline [mixed_requests; final "never reached"] unreachable.

(** A turn whose first response names a tool that is not registered. *)
Definition stray_request : World :=
  offline [requesting [ask_unknown "call_1"]; final "never reached"]
          unreachable.

(** A world whose adverse-event API returns one report on [product]. *)
Definition reporting (product : string) : World :=
  offline [] (Ok (api_response product)).

End Fixture.

(** ** Further notions used in the statements *)

(** A history tail made of rounds: an assistant message that requests
    tools, followed by one tool message per request, in request order
    and with the request's call identifier. *)
Inductive rounds : list message -> Prop :=
  | rounds_nil : rounds []
  | rounds_cons a results rest :
      ai_tool_calls a <> [] ->
      map tm_tool_call_id results = map tc_id (ai_tool_calls a) ->
      rounds rest ->
      rounds (AI a :: map Tool results ++ rest)%list.

(** The number of messages of a list that satisfy a test, and the two
    tests used on a history: assistant messages and tool messages. *)
Fixpoint count_messages (p : message -> bool) (l : list message) : nat :=
  match l with
  | [] => 0
  | m :: rest => ((if p m then 1 else 0) + count_messages p rest)%nat
  end.

Definition is_ai_message (m : message) : bool :=
  match m with AI _ => true | _ => false end.

Definition is_tool_message (m : message) : bool :=
  match m with Tool _ => true | _ => false end.

(** The number of events of a given kind. *)
Definition count_kind (kind : string) (evs : list StepEvent) : nat :=
  length (filter (fun ev => step_type ev = kind) evs).

(** The states of the globals that the module's own functions produce,
    starting from the import of the module. *)
Inductive reachable : agent_state -> Prop :=
  | reach_import env : reachable (module_state env)
  | reach_initialize w k u n p st :
      reachable st ->
      reachable (snd (initialize_agent_with_config w k u n p st))
  | reach_reset driver_close st st' :
      reachable st ->
      reset_agent driver_close st = Ok st' ->
      reachable st'.

(** ** [app.py]: the chat handler

    Only what the handler does to the session state and to the agent is
    modelled; the rendering calls are not.  [is_space] is the test
    [str.strip] applies to a character. *)

Module App.

Record chat_message := mkMessage {
  role : string;
  text : string }.

Record session_state := mkSession {
  messages : list chat_message;
  steps_history : gmap nat (list StepEvent);
  ss_openai_api_key : string;
  ss_neo4j_uri : string;
  ss_neo4j_username : string;
  ss_neo4j_password : string }.

Section Ui.

Variable is_space : ascii -> bool.

Fixpoint lstrip (s : string) : string :=
  match s with
  | EmptyString => EmptyString
  | String c rest => if is_space c then lstrip rest else s
  end.

Fixpoint rstrip (s : string) : string :=
  match s with
  | EmptyString => EmptyString
  | String c rest =>
      let rest' := rstrip rest in
      if String.eqb rest' "" && is_space c then EmptyString
      else String c rest'
  end.

Definition strip (s : string) : string := rstrip (lstrip s).

(** [all([... .strip() for the four fields])] *)
Definition config_complete (ss : session_state) : bool :=
  forallb (fun s => negb (String.eqb (strip s) ""))
    [ ss_openai_api_key ss; ss_neo4j_uri ss;
      ss_neo4j_username ss; ss_neo4j_password ss ].

(** The keyword arguments the handler passes to the agent. *)
Definition session_config (ss : session_state) : config :=
  mkConfig (Some (ss_openai_api_key ss)) (Some (ss_neo4j_uri ss))
           (Some (ss_neo4j_username ss)) (Some (ss_neo4j_password ss)).

(** The loop over the stream: every item is kept, and the content of an
    item flagged final becomes the answer. *)
Definition consume (events : list StepEvent) : string * list StepEvent :=
  fold_left
    (fun acc step_data =>
       let steps := (snd acc ++ [step_data])%list in
       if is_final step_data then (content step_data, steps)
       else (fst acc, steps))
    events ("", []).

(** What submitting [prompt] does; an empty prompt is no submission. *)
Definition handle_prompt (fuel : nat) (w : World) (prompt : string)
    (ss : session_state) (st : agent_state)
    : option (session_state * agent_state) :=
  if config_complete ss && negb (String.eqb prompt "") then
    let messages1 := (messages ss ++ [mkMessage "user" prompt])%list in
    match run_agent_with_streaming fuel w prompt (session_config ss) st with
    | None => None
    | Some t =>
        let '(final_answer, steps) := consume (returned t) in
        let messages2 :=
          (messages1 ++ [mkMessage "assistant" final_answer])%list in
        let message_id := (length messages2 - 1)%nat in
        Some (mkSession messages2
                (<[message_id := steps]> (steps_history ss))
                (ss_openai_api_key ss) (ss_neo4j_uri ss)
                (ss_neo4j_username ss) (ss_neo4j_password ss),
              state_after t)
    end
  else Some (ss, st).

End Ui.

(** The button that clears the chat. *)
Definition clear_chat (ss : session_state) : session_state :=
  mkSession [] ∅ (ss_openai_api_key ss) (ss_neo4j_uri ss)
            (ss_neo4j_username ss) (ss_neo4j_password ss).

(** Every stored trace belongs to an assistant message of the chat and
    ends with the event that carries the text of that message. *)
Definition traces_match (ss : session_state) : Prop :=
  forall i steps,
    steps_history ss !! i = Some steps ->
    exists evs ev,
      steps = (evs ++ [ev])%list
      /\ messages ss !! i = Some (mkMessage "assistant" (content ev)).

End App.

(** ** Notions about the records of the safety-event lookup *)

Definition is_dict (v : json) : bool :=
  match v with
  | JObj _ => true
  | _ => false
  end.

(** A drug name as the lookup keeps it. *)
Definition kept_name (v : json) : Prop :=
  exists s, v = JStr s /\ str_contains "TRAMADOL" (upper s) = true.

(** The dict built for one report. *)
Definition report_record (date id : json) (names reactions outcomes : list json)
    : json :=
  JObj [ ("receivedate", date);
         ("safetyreportid", id);
         ("drug_names", JArr names);
         ("reactions", JArr reactions);
         ("outcomes", JArr outcomes) ].

(** Inversion of a successful [let*]. *)
Ltac res_inv H :=
  match type of H with
  | res_bind ?m _ = Ok _ =>
      let a := fresh "a" in
      let E := fresh "E" in
      destruct m as [a|?] eqn:E; simpl in H; [|discriminate H]
  end.

(** ** More concrete worlds *)

Module Sample.

(** The body the API sends when no report matches. *)
Definition not_found : json :=
  JObj [ ("error",
          JObj [ ("code", JStr "NOT_FOUND");
                 ("message", JStr "No matches found!") ]) ].

Definition no_match : World := Fixture.offline [] (Ok not_found).

(** A body whose second result is not a dict. *)
Definition damaged : World :=
  Fixture.offline []
    (Ok (JObj [ ("results",
                 JArr [Fixture.report "Tramadol HCl"; JStr "truncated"]) ])).

(** A report that has neither a date nor a patient section. *)
Definition bare_report : json := JObj [ ("safetyreportid", JStr "42") ].

(** A world in which the PDF is found at the second candidate path and
    every back end answers; the graph chain answers [graph_answer]. *)
Definition online (script : list AIMessage) (graph_answer : res json)
    : World :=
  {| w_chat := fun _ _ round _ => Fixture.scripted script round;
     w_bind_fda := Fixture.bind_fda;
     w_bind_question := Fixture.bind_question;
     w_http_get_json := fun _ _ => Ok (Fixture.api_response "Tramadol HCl");
     w_json_dumps := fun _ => Ok "<json>";
     w_repr := fun _ => "<repr>";
     w_path_exists :=
       fun p => String.eqb p "/app/src/tools/pdf_data/report_2023_2024.pdf";
     w_src_dir := "/app/src";
     w_agent_dir := "/app/src/agent";
     w_build_vector_store := fun _ _ => Ok tt;
     w_similarity_search :=
       fun _ _ _ => Ok [mkDocument "Revenue rose." (JObj [])];
     w_rag_llm := fun _ _ _ _ => Ok "Revenue rose in 2023.";
     w_driver := fun _ _ => Ok tt;
     w_verify_connectivity := fun _ => Ok tt;
     w_graph := fun _ _ _ => Ok tt;
     w_chain_from_llm := fun _ _ => Ok tt;
     w_chain_invoke := fun _ _ _ => graph_answer |}.

Definition connected : World := online [] (Ok (JStr "Pfizer")).

(** The state after configuring in the connected world. *)
Definition equipped_state : agent_state :=
  snd (initialize_agent_with_config connected
         "sk-test" "bolt://localhost:7687" "neo4j" "secret"
         (module_state ∅)).

(** Closing the driver fails. *)
Definition stuck_close (_ : Driver) : res unit :=
  Raise (ExternalError "driver already closed").

Definition clean_close (_ : Driver) : res unit := Ok tt.

(** Blank, tab, line feed and carriage return. *)
Definition is_space (c : ascii) : bool :=
  existsb (Ascii.eqb c) [" "; "009"; "010"; "013"]%char.

(** A fresh chat with the four fields filled in. *)
Definition session : App.session_state :=
  App.mkSession [] ∅ "sk-test" "bolt://localhost:7687" "neo4j" "secret".

(** The same chat with a password made of blanks. *)
Definition blank_password : App.session_state :=
  App.mkSession [] ∅ "sk-test" "bolt://localhost:7687" "neo4j" "   ".

End Sample.

(** The kinds of event and the task names that a stream can show. *)
Definition streamed_kind (ev : StepEvent) : Prop :=
  In (step_type ev)
     ["tool_decision"; "tool_execution"; "final_answer"; "error"]
  /\ In (task_name ev) ["call_model"; "call_tool"; "error"].

(** A state in which none of the guards for missing globals can fire. *)
Definition equipped (st : agent_state) : Prop :=
  is_Some (model st)
  /\ is_Some (neo4j_tool st)
  /\ is_Some (pdf_tool st)
  /\ tools st = [Tool_fda; Tool_neo4j; Tool_pdf]
  /\ tools_by_name st = registry [Tool_fda; Tool_neo4j; Tool_pdf].

(** * Properties *)

(** ** Dispatch *)

Lemma try_except_total {A} (body : res A) (h : exn -> A) :
  exists a, try_except body (fun e => Ok (h e)) = Ok a.
Proof. destruct body; simpl; eauto. Qed.

Lemma fda_tool_returns w tick drug_name limit :
  exists text, fda_adverse_events_tool w tick drug_name limit = Ok text.
Proof. apply try_except_total. Qed.

Lemma neo4j_tool_returns w st tick question :
  exists text, neo4j_query_tool w st tick question = Ok text.
Proof. apply try_except_total. Qed.

Lemma pdf_tool_returns w st tick question :
  exists text, pdf_search_tool w st tick question = Ok text.
Proof. apply try_except_total. Qed.

(** Once the arguments are accepted, a registered tool hands back text. *)
Lemma tool_invoke_returns w st tick t args :
  validates w t args = true ->
  exists text, tool_invoke w st tick t args = Ok text.
Proof.
  destruct t; simpl; intros Hv.
  - destruct (w_bind_fda w args) as [[d l]|e]; [|discriminate].
    simpl. apply fda_tool_returns.
  - destruct (w_bind_question w _ args) as [q|e]; [|discriminate].
    simpl. apply neo4j_tool_returns.
  - destruct (w_bind_question w _ args) as [q|e]; [|discriminate].
    simpl. apply pdf_tool_returns.
Qed.

Lemma registry_nonempty (m : gmap string tool) k t :
  m !! k = Some t -> m <> ∅.
Proof. intros H ->. rewrite lookup_empty in H. discriminate. Qed.

Lemma call_tool_registered w st tick tc t :
  tools_by_name st !! tc_name tc = Some t ->
  call_tool w st tick tc =
    res_bind (tool_invoke w st tick t (tc_args tc))
      (fun observation => Ok (mkToolMessage observation (tc_id tc))).
Proof.
  intros Ht. unfold call_tool.
  destruct (decide (tools_by_name st = ∅)) as [He|_].
  - exfalso. eapply registry_nonempty; eauto.
  - rewrite Ht. reflexivity.
Qed.

Lemma call_tool_returns w st tick tc :
  dispatchable w st tc ->
  exists text, call_tool w st tick tc = Ok (mkToolMessage text (tc_id tc)).
Proof.
  intros (t & Ht & Hv).
  rewrite (call_tool_registered _ _ _ _ _ Ht).
  destruct (tool_invoke_returns w st tick t _ Hv) as [text ->].
  simpl. eauto.
Qed.

(** A message that [call_tool] returns answers the request it was given. *)
Lemma call_tool_id w st tick tc m :
  call_tool w st tick tc = Ok m -> tm_tool_call_id m = tc_id tc.
Proof.
  unfold call_tool. destruct (decide _); [discriminate|].
  destruct (_ !! _); [|discriminate].
  destruct (tool_invoke _ _ _ _ _); simpl; [|discriminate].
  intros [= <-]. reflexivity.
Qed.

Lemma dispatch_returns w st calls :
  Forall (dispatchable w st) calls ->
  forall tick, exists results, collect (dispatch w st tick calls) = Ok results.
Proof.
  induction 1 as [|tc rest Htc _ IH]; intros tick; simpl.
  - eauto.
  - destruct (call_tool_returns w st tick tc Htc) as [text ->].
    destruct (IH (S tick)) as [results ->]. simpl. eauto.
Qed.

(** The collected results line up with the requests, position by
    position. *)
Lemma dispatch_ids w st calls :
  forall tick results,
    collect (dispatch w st tick calls) = Ok results ->
    Forall2 (fun tc m => tm_tool_call_id m = tc_id tc) calls results.
Proof.
  induction calls as [|tc rest IH]; intros tick results; simpl.
  - intros [= <-]. constructor.
  - destruct (call_tool w st tick tc) as [m|e] eqn:Hm; simpl; [|discriminate].
    destruct (collect (dispatch w st (S tick) rest)) as [ms|e] eqn:Hms;
      simpl; [|discriminate].
    intros [= <-]. constructor.
    + eapply call_tool_id; eauto.
    + eapply IH; eauto.
Qed.

(** With distinct call identifiers in a batch, an identifier selects one
    request. *)
Lemma unique_request (calls : list tool_call) :
  NoDup (map tc_id calls) ->
  forall tc, In tc calls ->
    length (filter (fun tc' => String.eqb (tc_id tc') (tc_id tc)) calls) = 1%nat.
Proof.
  induction calls as [|c rest IH]; simpl; intros Hnd tc Hin; [tauto|].
  apply NoDup_cons in Hnd as [Hc Hrest].
  assert (Hnone : forall i, i ∉ map tc_id rest ->
     filter (fun tc' => String.eqb (tc_id tc') i) rest = []).
  { clear. induction rest as [|r rest IH]; intros i Hi; [reflexivity|].
    simpl in *. apply not_elem_of_cons in Hi as [Hne Hi].
    rewrite filter_cons.
    destruct (decide _) as [Heq|_].
    - apply Is_true_true, String.eqb_eq in Heq. congruence.
    - auto. }
  rewrite filter_cons.
  destruct Hin as [->|Hin].
  - rewrite String.eqb_refl. simpl. rewrite Hnone; auto.
  - destruct (decide _) as [Heq|_].
    + apply Is_true_true, String.eqb_eq in Heq.
      exfalso. apply Hc. rewrite Heq.
      apply list_elem_of_In, in_map, Hin.
    + apply IH; auto.
Qed.

(** One iteration of the loop on a response that requests tools, when
    the batch returns. *)
Lemma agent_loop_batch fuel w st emitted round tick messages a results :
  ai_tool_calls a <> [] ->
  collect (dispatch w st tick (ai_tool_calls a)) = Ok results ->
  agent_loop (S fuel) w st emitted round tick messages a =
    let emitted' :=
      (emitted ++ tool_steps (dispatch w st tick (ai_tool_calls a)))%list in
    let tick' := (tick + length (ai_tool_calls a))%nat in
    let messages' := (messages ++ AI a :: map Tool results)%list in
    match call_model w st round messages' with
    | Raise e => Some (mkRun emitted' messages' (Raise e) (S round) tick')
    | Ok a' =>
        agent_loop fuel w st
          (emitted' ++ [mkStep "call_model" (AI a')])%list
          (S round) tick' messages' a'
    end.
Proof.
  intros Hne Hc. simpl.
  destruct (ai_tool_calls a) as [|tc rest] eqn:Hcalls; [congruence|].
  rewrite Hc. reflexivity.
Qed.

(** The same iteration when a dispatch of the batch raises. *)
Lemma agent_loop_abort fuel w st emitted round tick messages a e :
  collect (dispatch w st tick (ai_tool_calls a)) = Raise e ->
  agent_loop (S fuel) w st emitted round tick messages a =
    Some (mkRun
            (emitted ++ tool_steps (dispatch w st tick (ai_tool_calls a)))%list
            messages (Raise e) round
            (tick + length (ai_tool_calls a))%nat).
Proof.
  intros Hc. simpl.
  destruct (ai_tool_calls a) as [|tc rest] eqn:Hcalls; [discriminate|].
  rewrite Hc. reflexivity.
Qed.

(** ** The tool batch of a round *)

Lemma call_tool_ok_dispatchable w st tick tc m :
  call_tool w st tick tc = Ok m -> dispatchable w st tc.
Proof.
  unfold call_tool. destruct (decide _); [discriminate|].
  destruct (tools_by_name st !! tc_name tc) as [t|] eqn:Ht; [|discriminate].
  intros H. exists t. split; [exact Ht|].
  destruct t; simpl in *.
  - destruct (w_bind_fda w (tc_args tc)); [reflexivity|discriminate].
  - destruct (w_bind_question w _ (tc_args tc)); [reflexivity|discriminate].
  - destruct (w_bind_question w _ (tc_args tc)); [reflexivity|discriminate].
Qed.

Lemma dispatch_ok_dispatchable w st calls :
  forall tick results,
    collect (dispatch w st tick calls) = Ok results ->
    Forall (dispatchable w st) calls.
Proof.
  induction calls as [|tc rest IH]; intros tick results; simpl.
  - constructor.
  - destruct (call_tool w st tick tc) as [m|e] eqn:Hm; simpl; [|discriminate].
    destruct (collect (dispatch w st (S tick) rest)) as [ms|e] eqn:Hms;
      simpl; [|discriminate].
    intros _. constructor.
    + eapply call_tool_ok_dispatchable; eauto.
    + eapply IH; eauto.
Qed.

(** Counterexample to C1 as stated.  The response carries two requests,
    the second for a name that is not registered: the batch yields no
    tool result, the history is left as it was and the loop stops
    without another model invocation. *)
Lemma round_without_results :
  length (ai_tool_calls Fixture.mixed_requests) = 2%nat
  /\ ~ (exists results,
          collect (dispatch Fixture.quiet Fixture.ready 0
                     (ai_tool_calls Fixture.mixed_requests)) = Ok results)
  /\ option_map (fun r => (history r, outcome r, model_calls r))
       (agent_loop 3 Fixture.quiet Fixture.ready [] 1 0
          [Human "Anything?"] Fixture.mixed_requests)
     = Some ([Human "Anything?"], Raise (KeyError "no_such_tool"), 1%nat).
Proof.
  split; [reflexivity|]. split.
  - intros [results H]. vm_compute in H. discriminate.
  - vm_compute. reflexivity.
Qed.

(** C1 (as the code has it).  Take a round whose model response [a]
    carries n requests.  The batch returns exactly when every request
    is dispatchable (a registered tool, arguments its signature
    accepts).  When it returns it yields exactly n tool results; the
    i-th result carries the call identifier of the i-th request, so that
    with distinct identifiers every result matches exactly one request;
    and the next model invocation is made on the history extended by the
    response followed by the results in request order.  Otherwise a
    dispatch raised: the loop then stops with that exception, the
    history is untouched and the model is not invoked again. *)
Theorem tool_batch_matches_requests
    fuel w st emitted round tick messages a :
  ai_tool_calls a <> [] ->
  let calls := ai_tool_calls a in
  let emitted' := (emitted ++ tool_steps (dispatch w st tick calls))%list in
  let tick' := (tick + length calls)%nat in
  (Forall (dispatchable w st) calls <->
   exists results, collect (dispatch w st tick calls) = Ok results)
  /\ match collect (dispatch w st tick calls) with
     | Ok results =>
         length results = length calls
         /\ Forall2 (fun tc m => tm_tool_call_id m = tc_id tc) calls results
         /\ (NoDup (map tc_id calls) ->
             Forall (fun m =>
               length (filter
                         (fun tc => String.eqb (tc_id tc) (tm_tool_call_id m))
                         calls) = 1%nat) results)
         /\ agent_loop (S fuel) w st emitted round tick messages a =
              let history' := (messages ++ AI a :: map Tool results)%list in
              match call_model w st round history' with
              | Raise e =>
                  Some (mkRun emitted' history' (Raise e) (S round) tick')
              | Ok a' =>
                  agent_loop fuel w st
                    (emitted' ++ [mkStep "call_model" (AI a')])%list
                    (S round) tick' history' a'
              end
     | Raise e =>
         agent_loop (S fuel) w st emitted round tick messages a =
           Some (mkRun emitted' messages (Raise e) round tick')
     end.
Proof.
  intros Hne calls emitted' tick'. split.
  { split.
    - intros Hall. apply dispatch_returns, Hall.
    - intros [results Hres]. eapply dispatch_ok_dispatchable; eauto. }
  destruct (collect (dispatch w st tick calls)) as [results|e] eqn:Hres.
  - pose proof (dispatch_ids _ _ _ _ _ Hres) as Hids.
    split; [symmetry; eapply Forall2_length; eauto|].
    split; [exact Hids|].
    split.
    + intros Hnd. apply Forall_forall. intros m Hm.
      destruct (proj1 (list_elem_of_lookup _ _) Hm) as [i Hi].
      destruct (Forall2_lookup_r _ _ _ _ _ Hids Hi) as (tc & Htc & Hid).
      rewrite Hid. apply unique_request; [exact Hnd|].
      apply list_elem_of_In, list_elem_of_lookup. eauto.
    + apply agent_loop_batch; assumption.
  - apply agent_loop_abort; assumption.
Qed.

Lemma tool_batch_matches_requests_witness :
  ai_tool_calls Fixture.two_requests <> []
  /\ Forall (dispatchable Fixture.two_rounds Fixture.ready)
       (ai_tool_calls Fixture.two_requests)
  /\ exists results,
       collect (dispatch Fixture.two_rounds Fixture.ready 0
                  (ai_tool_calls Fixture.two_requests)) = Ok results
       /\ length results = 2%nat
       /\ map tm_tool_call_id results = ["call_1"; "call_2"]
       /\ option_map (fun r => (history r, outcome r, model_calls r))
            (agent_loop 2 Fixture.two_rounds Fixture.ready [] 1 0
               [Human "What is reported?"] Fixture.two_requests)
          = Some ([Human "What is reported?"; AI Fixture.two_requests]
                  ++ map Tool results,
                  Ok (Fixture.final "No events were retrieved."),
                  2%nat)%list.
Proof.
  assert (Hne : ai_tool_calls Fixture.two_requests <> []) by discriminate.
  assert (Hall : Forall (dispatchable Fixture.two_rounds Fixture.ready)
                   (ai_tool_calls Fixture.two_requests)).
  { repeat constructor.
    - exists Tool_fda. split; vm_compute; reflexivity.
    - exists Tool_neo4j. split; vm_compute; reflexivity. }
  split; [exact Hne|]. split; [exact Hall|].
  destruct (tool_batch_matches_requests 1 Fixture.two_rounds Fixture.ready []
              1 0 [Human "What is reported?"] Fixture.two_requests Hne)
    as [Hret Hround].
  destruct (proj1 Hret Hall) as [results Hres].
  cbv zeta in Hround. rewrite Hres in Hround.
  destruct Hround as (Hlen & Hids & _ & Hloop).
  exists results. split; [exact Hres|]. split; [exact Hlen|].
  split.
  - clear Hres Hlen Hret Hloop.
    inversion Hids as [|tc1 m1 ? ? H1 Hrest]; subst.
    inversion Hrest as [|tc2 m2 ? ? H2 Hnil]; subst.
    inversion Hnil; subst. simpl. rewrite H1, H2. reflexivity.
  - rewrite Hloop. reflexivity.
Defined.

(** ** Termination of the loop *)

Lemma agent_loop_final fuel w st emitted round tick messages a :
  ai_tool_calls a = [] ->
  agent_loop (S fuel) w st emitted round tick messages a =
    Some (mkRun (emitted ++ [mkStep "agent" (AI a)])%list
            messages (Ok a) round tick).
Proof. intros Ha. simpl. rewrite Ha. reflexivity. Qed.

Section Termination.

Variables (w : World) (st : agent_state) (n : nat).

(** The response of round [n] carries no tool request. *)
Hypothesis final_round :
  forall h, exists a, call_model w st n h = Ok a /\ ai_tool_calls a = [].

Lemma agent_loop_halts k :
  forall fuel r emitted tick messages a,
    (r + k = n)%nat -> (k < fuel)%nat ->
    call_model w st r messages = Ok a ->
    is_Some (agent_loop fuel w st emitted (S r) tick messages a).
Proof.
  induction k as [|k IH]; intros fuel r emitted tick messages a Hr Hf Ha;
    (destruct fuel as [|fuel]; [lia|]).
  - assert (r = n) as -> by lia.
    destruct (final_round messages) as (a' & Ha' & Hfin).
    assert (a' = a) as -> by congruence.
    rewrite agent_loop_final by assumption. eauto.
  - destruct (ai_tool_calls a) as [|tc rest] eqn:Hcalls.
    { rewrite agent_loop_final by assumption. eauto. }
    destruct (collect (dispatch w st tick (ai_tool_calls a)))
      as [results|e] eqn:Hres.
    + rewrite (agent_loop_batch _ _ _ _ _ _ _ _ results)
        by (congruence || assumption).
      cbv zeta.
      destruct (call_model w st (S r) _) as [a'|e] eqn:Hnext; [|eauto].
      eapply IH; [lia|lia|exact Hnext].
    + rewrite (agent_loop_abort _ _ _ _ _ _ _ _ e) by assumption. eauto.
Qed.

(** Every earlier round answers with requests that can be dispatched. *)
Hypothesis tool_rounds :
  forall r h, (r < n)%nat ->
    exists a, call_model w st r h = Ok a
              /\ ai_tool_calls a <> []
              /\ Forall (dispatchable w st) (ai_tool_calls a).

Lemma round_answers r h :
  (r <= n)%nat -> exists a, call_model w st r h = Ok a.
Proof.
  intros Hr. destruct (decide (r = n)) as [->|Hne].
  - destruct (final_round h) as (a & Ha & _). eauto.
  - destruct (tool_rounds r h ltac:(lia)) as (a & Ha & _). eauto.
Qed.

Lemma agent_loop_reaches_final k :
  forall r emitted tick messages a,
    (r + k = n)%nat ->
    call_model w st r messages = Ok a ->
    exists run a',
      (forall fuel, (k < fuel)%nat ->
         agent_loop fuel w st emitted (S r) tick messages a = Some run)
      /\ outcome run = Ok a'
      /\ ai_tool_calls a' = []
      /\ call_model w st n (history run) = Ok a'
      /\ model_calls run = S n.
Proof.
  induction k as [|k IH]; intros r emitted tick messages a Hr Ha.
  - assert (r = n) as -> by lia.
    destruct (final_round messages) as (a' & Ha' & Hfin).
    assert (a' = a) as -> by congruence.
    eexists _, a. split.
    { intros [|fuel] Hf; [lia|]. apply agent_loop_final; assumption. }
    simpl. auto.
  - destruct (tool_rounds r messages ltac:(lia)) as (a0 & Ha0 & Hne & Hall).
    assert (a0 = a) as -> by congruence.
    destruct (dispatch_returns w st _ Hall tick) as [results Hres].
    destruct (round_answers (S r)
                (messages ++ AI a :: map Tool results)%list ltac:(lia))
      as (a' & Ha').
    destruct (IH (S r)
                ((emitted ++ tool_steps (dispatch w st tick (ai_tool_calls a)))
                 ++ [mkStep "call_model" (AI a')])%list
                (tick + length (ai_tool_calls a))%nat
                (messages ++ AI a :: map Tool results)%list a'
                ltac:(lia) Ha')
      as (run & afin & Hrun & Hout & Hfin & Hhist & Hcalls).
    exists run, afin. split; [|auto].
    intros [|fuel] Hf; [lia|].
    rewrite (agent_loop_batch _ _ _ _ _ _ _ _ results) by assumption.
    cbv zeta. rewrite Ha'. apply Hrun. lia.
Qed.

End Termination.

(** Counterexample to C2 as stated.  In [Fixture.stray_request] the
    response of round 1 carries no tool request, whatever the history;
    the turn nevertheless ends after a single model invocation and
    returns an error text, not the content of that response. *)
Lemma final_response_not_returned :
  (forall h, call_model Fixture.stray_request Fixture.ready 1 h
             = Ok (Fixture.final "never reached"))
  /\ option_map (fun t => (returned t, turn_model_calls t))
       (run_agent 5 Fixture.stray_request "Anything?" Fixture.full_config
          (module_state ∅))
     = Some ("Error running agent: 'no_such_tool'", 1%nat)
  /\ "Error running agent: 'no_such_tool'" <> "never reached".
Proof.
  split; [intros h; reflexivity|].
  split; [vm_compute; reflexivity|discriminate].
Qed.

(** C2 (as the code has it).  When the response of round [n] is the
    first without tool requests, the loop stops within [n + 1]
    iterations whatever the earlier rounds do; and when the earlier
    rounds answer with dispatchable requests it returns that response,
    the history it returns is the one that response was computed from,
    and [run_agent] hands its content to the caller. *)
Theorem agent_terminates_with_final_answer w st n question :
  (forall h, exists a, call_model w st n h = Ok a /\ ai_tool_calls a = []) ->
  (forall fuel, (n < fuel)%nat ->
     is_Some (agent fuel w st [Human question]))
  /\ ((forall r h, (r < n)%nat ->
         exists a, call_model w st r h = Ok a
                   /\ ai_tool_calls a <> []
                   /\ Forall (dispatchable w st) (ai_tool_calls a)) ->
      exists run a,
        (forall fuel, (n < fuel)%nat ->
           agent fuel w st [Human question] = Some run)
        /\ outcome run = Ok a
        /\ ai_tool_calls a = []
        /\ call_model w st n (history run) = Ok a
        /\ model_calls run = S n
        /\ (forall c st0 fuel,
              ensure_initialized w c st0 = Some (Ok tt, st) ->
              (n < fuel)%nat ->
              exists t, run_agent fuel w question c st0 = Some t
                        /\ returned t = ai_content a
                        /\ turn_model_calls t = S n)).
Proof.
  intros Hfinal. split.
  - intros fuel Hf. unfold agent.
    destruct (call_model w st 0 [Human question]) as [a|e] eqn:Ha; [|eauto].
    eapply (agent_loop_halts w st n Hfinal n); [lia|exact Hf|exact Ha].
  - intros Hrounds.
    destruct (round_answers w st n Hfinal Hrounds 0 [Human question]
                ltac:(lia)) as (a0 & Ha0).
    destruct (agent_loop_reaches_final w st n Hfinal Hrounds n 0
                [mkStep "call_model" (AI a0)] 0%nat [Human question] a0
                ltac:(lia) Ha0)
      as (run & a & Hrun & Hout & Hfin & Hhist & Hcalls).
    exists run, a.
    assert (Hagent : forall fuel, (n < fuel)%nat ->
              agent fuel w st [Human question] = Some run).
    { intros fuel Hf. unfold agent. rewrite Ha0. apply Hrun, Hf. }
    repeat split; try assumption.
    intros c st0 fuel Hinit Hf. unfold run_agent.
    rewrite Hinit, (Hagent fuel Hf), Hout. eexists. split; [reflexivity|].
    simpl. auto.
Qed.

Lemma agent_terminates_with_final_answer_witness :
  (forall h, exists a,
      call_model Fixture.two_rounds Fixture.ready 1 h = Ok a
      /\ ai_tool_calls a = [])
  /\ exists t,
       run_agent 2 Fixture.two_rounds "What is reported for TRAMADOL?"
         Fixture.full_config (module_state ∅) = Some t
       /\ returned t = "No events were retrieved."
       /\ turn_model_calls t = 2%nat.
Proof.
  assert (Hfinal : forall h, exists a,
            call_model Fixture.two_rounds Fixture.ready 1 h = Ok a
            /\ ai_tool_calls a = []).
  { intros h. eexists. split; reflexivity. }
  assert (Hrounds : forall r h, (r < 1)%nat ->
            exists a, call_model Fixture.two_rounds Fixture.ready r h = Ok a
                      /\ ai_tool_calls a <> []
                      /\ Forall (dispatchable Fixture.two_rounds Fixture.ready)
                           (ai_tool_calls a)).
  { intros [|r] h Hr; [|lia]. exists Fixture.two_requests.
    split; [reflexivity|]. split; [discriminate|].
    repeat constructor.
    - exists Tool_fda. split; vm_compute; reflexivity.
    - exists Tool_neo4j. split; vm_compute; reflexivity. }
  split; [exact Hfinal|].
  destruct (agent_terminates_with_final_answer
              Fixture.two_rounds Fixture.ready 1
              "What is reported for TRAMADOL?" Hfinal) as [_ Hret].
  destruct (Hret Hrounds)
    as (run & a & Hagent & Hout & Hfin & Hhist & Hcalls & Hturn).
  assert (Hinit : ensure_initialized Fixture.two_rounds Fixture.full_config
                    (module_state ∅) = Some (Ok tt, Fixture.ready))
    by (vm_compute; reflexivity).
  destruct (Hturn Fixture.full_config (module_state ∅) 2%nat
              Hinit ltac:(lia))
    as (t & Ht & Hans & Hn).
  exists t. split; [exact Ht|]. split; [|exact Hn].
  rewrite Hans.
  assert (Hrun : agent 2 Fixture.two_rounds Fixture.ready
                   [Human "What is reported for TRAMADOL?"] = Some run)
    by (apply Hagent; lia).
  vm_compute in Hrun. injection Hrun as <-.
  simpl in Hout. injection Hout as <-. reflexivity.
Defined.

(** ** The streamed events *)

Lemma tool_steps_intermediate w futs :
  Forall intermediate (omap (step_event w) (tool_steps futs)).
Proof.
  induction futs as [|[m|e] rest IH]; simpl; auto.
  constructor; [|exact IH]. split; [reflexivity|discriminate].
Qed.

Lemma decision_event_intermediate w a ev :
  ai_tool_calls a <> [] ->
  step_event w (mkStep "call_model" (AI a)) = Some ev ->
  intermediate ev.
Proof.
  intros Hne. unfold step_event. simpl.
  destruct (ai_tool_calls a) as [|tc rest]; [congruence|]. simpl.
  intros [= <-]. split; [reflexivity|discriminate].
Qed.

Lemma final_event w a :
  ai_tool_calls a = [] ->
  step_event w (mkStep "call_model" (AI a)) = Some (closing_event (Ok a)).
Proof. intros Ha. unfold step_event. simpl. rewrite Ha. reflexivity. Qed.

Lemma decision_event_some w a :
  ai_tool_calls a <> [] ->
  exists ev, step_event w (mkStep "call_model" (AI a)) = Some ev
             /\ intermediate ev.
Proof.
  intros Hne.
  destruct (step_event w (mkStep "call_model" (AI a))) as [ev|] eqn:Hev.
  - exists ev. split; [reflexivity|].
    eapply decision_event_intermediate; eauto.
  - exfalso. revert Hev. unfold step_event. simpl.
    destruct (0 <? length (ai_tool_calls a))%nat; discriminate.
Qed.

(** The stream of a run: intermediate events, then one closing event
    that tells how the loop ended. *)
Lemma agent_loop_stream w st fuel :
  forall emitted round tick messages a run pre,
    agent_loop fuel w st emitted round tick messages a = Some run ->
    emitted = (pre ++ [mkStep "call_model" (AI a)])%list ->
    Forall intermediate (omap (step_event w) pre) ->
    exists evs,
      stream_events w run = (evs ++ [closing_event (outcome run)])%list
      /\ Forall intermediate evs.
Proof.
  induction fuel as [|fuel IH];
    intros emitted round tick messages a run pre Hrun -> Hpre;
    [discriminate|].
  destruct (ai_tool_calls a) as [|tc rest] eqn:Hcalls.
  - rewrite agent_loop_final in Hrun by assumption.
    injection Hrun as <-. unfold stream_events. simpl.
    exists (omap (step_event w) pre). split; [|exact Hpre].
    rewrite !omap_app. simpl. rewrite (final_event w a Hcalls).
    simpl. rewrite app_nil_r. reflexivity.
  - assert (Hne : ai_tool_calls a <> []) by congruence.
    destruct (decision_event_some w a Hne) as (dev & Hdev & Hdev_int).
    set (futs := dispatch w st tick (ai_tool_calls a)) in *.
    assert (Hquiet : Forall intermediate
              (omap (step_event w)
                 ((pre ++ [mkStep "call_model" (AI a)])
                  ++ tool_steps futs)%list)).
    { rewrite !omap_app. simpl. rewrite Hdev. simpl.
      apply Forall_app. split.
      - apply Forall_app. split; [exact Hpre|]. constructor; auto.
      - apply tool_steps_intermediate. }
    destruct (collect futs) as [results|e] eqn:Hres.
    + rewrite (agent_loop_batch _ _ _ _ _ _ _ _ results) in Hrun
        by assumption.
      cbv zeta in Hrun. fold futs in Hrun.
      destruct (call_model w st round _) as [a'|e] eqn:Hnext.
      * eapply IH; [exact Hrun|reflexivity|exact Hquiet].
      * injection Hrun as <-. unfold stream_events. simpl.
        eexists. split; [reflexivity|exact Hquiet].
    + rewrite (agent_loop_abort _ _ _ _ _ _ _ _ e) in Hrun by assumption.
      fold futs in Hrun. injection Hrun as <-.
      unfold stream_events. simpl.
      eexists. split; [reflexivity|exact Hquiet].
Qed.

Lemma agent_stream w st fuel messages run :
  agent fuel w st messages = Some run ->
  exists evs,
    stream_events w run = (evs ++ [closing_event (outcome run)])%list
    /\ Forall intermediate evs.
Proof.
  unfold agent. destruct (call_model w st 0 messages) as [a|e].
  - intros Hrun.
    eapply (agent_loop_stream w st fuel _ _ _ _ _ _ []);
      [exact Hrun|reflexivity|constructor].
  - intros [= <-]. exists []. split; [reflexivity|constructor].
Qed.

Lemma filter_intermediate (evs : list StepEvent) :
  Forall intermediate evs ->
  filter (fun ev => is_final ev = true) evs = [].
Proof.
  induction 1 as [|ev evs [Hev _] _ IH]; [reflexivity|].
  rewrite filter_cons. destruct (decide _); [congruence|exact IH].
Qed.

Lemma closing_event_final o : is_final (closing_event o) = true.
Proof. destruct o; reflexivity. Qed.

Lemma closing_event_content o : content (closing_event o) = answer_of o.
Proof. destruct o; reflexivity. Qed.

Lemma single_final (evs : list StepEvent) ev :
  Forall intermediate evs -> is_final ev = true ->
  filter (fun e => is_final e = true) (evs ++ [ev])%list = [ev].
Proof.
  intros Hevs Hev. rewrite filter_app, (filter_intermediate _ Hevs).
  simpl. rewrite filter_cons. destruct (decide _); [reflexivity|congruence].
Qed.

(** C3.  On the same question, configuration, state and world, the two
    entry points stop together, and the stream then holds exactly one
    event flagged final, the last one, whose content is the text that
    [run_agent] returns. *)
Theorem streaming_final_event_matches_answer fuel w question c st :
  match run_agent fuel w question c st,
        run_agent_with_streaming fuel w question c st with
  | Some t, Some ts =>
      exists evs ev,
        returned ts = (evs ++ [ev])%list
        /\ filter (fun e => is_final e = true) (returned ts) = [ev]
        /\ content ev = returned t
        /\ state_after ts = state_after t
  | None, None => True
  | _, _ => False
  end.
Proof.
  unfold run_agent, run_agent_with_streaming.
  destruct (ensure_initialized w c st) as [[[[]|e] st']|].
  - destruct (agent fuel w st' [Human question]) as [r|] eqn:Hr; [|exact I].
    destruct (agent_stream _ _ _ _ _ Hr) as (evs & Hevs & Hquiet).
    exists evs, (closing_event (outcome r)). simpl.
    rewrite Hevs. split; [reflexivity|]. split.
    + apply single_final; [exact Hquiet|apply closing_event_final].
    + split; [|reflexivity]. rewrite closing_event_content.
      destruct (outcome r); reflexivity.
  - exists [], (error_event ("Error running agent: " ++ exn_str e)). simpl.
    repeat split; reflexivity.
  - exists [], (error_event not_initialized_error). simpl.
    repeat split; reflexivity.
Qed.

(** The two-round turn of [Fixture.two_rounds], seen from both entry
    points: the answer, and the kinds and final flags of the events. *)
Example two_round_turn_streams_its_answer :
  option_map returned
    (run_agent 2 Fixture.two_rounds "What is reported for TRAMADOL?"
       Fixture.full_config (module_state ∅))
  = Some "No events were retrieved."
  /\ option_map (fun ts => map (fun ev => (step_type ev, is_final ev))
                            (returned ts))
       (run_agent_with_streaming 2 Fixture.two_rounds
          "What is reported for TRAMADOL?" Fixture.full_config
          (module_state ∅))
     = Some [ ("tool_decision", false); ("tool_execution", false);
              ("tool_execution", false); ("final_answer", true) ].
Proof. split; vm_compute; reflexivity. Qed.

(** C9.  When the loop raises [e], the stream is a sequence of events
    that are neither final nor errors, followed by exactly one event of
    kind error, flagged final, whose content describes [e]; it is the
    last event. *)
Theorem stream_ends_with_single_error fuel w question c st st' r e :
  ensure_initialized w c st = Some (Ok tt, st') ->
  agent fuel w st' [Human question] = Some r ->
  outcome r = Raise e ->
  exists ts evs,
    run_agent_with_streaming fuel w question c st = Some ts
    /\ returned ts =
         (evs ++ [mkEvent "error" ("Error running agent: " ++ exn_str e)
                    "error" true])%list
    /\ Forall (fun ev => is_final ev = false /\ step_type ev <> "error") evs.
Proof.
  intros Hinit Hr He. unfold run_agent_with_streaming.
  rewrite Hinit, Hr.
  destruct (agent_stream _ _ _ _ _ Hr) as (evs & Hevs & Hquiet).
  eexists _, evs. split; [reflexivity|]. simpl.
  rewrite Hevs, He. split; [reflexivity|exact Hquiet].
Qed.

Lemma stream_ends_with_single_error_witness :
  ensure_initialized Fixture.stray_request Fixture.full_config
    (module_state ∅) = Some (Ok tt, Fixture.ready)
  /\ option_map outcome
       (agent 3 Fixture.stray_request Fixture.ready [Human "Anything?"])
     = Some (Raise (KeyError "no_such_tool"))
  /\ exists ts evs,
       run_agent_with_streaming 3 Fixture.stray_request "Anything?"
         Fixture.full_config (module_state ∅) = Some ts
       /\ returned ts =
            (evs ++ [mkEvent "error" "Error running agent: 'no_such_tool'"
                       "error" true])%list
       /\ Forall (fun ev => is_final ev = false /\ step_type ev <> "error")
            evs.
Proof.
  assert (Hinit : ensure_initialized Fixture.stray_request Fixture.full_config
                    (module_state ∅) = Some (Ok tt, Fixture.ready))
    by (vm_compute; reflexivity).
  destruct (agent 3 Fixture.stray_request Fixture.ready [Human "Anything?"])
    as [r|] eqn:Hr; [|vm_compute in Hr; discriminate].
  assert (He : outcome r = Raise (KeyError "no_such_tool")).
  { vm_compute in Hr. injection Hr as <-. reflexivity. }
  split; [exact Hinit|]. split; [simpl; rewrite He; reflexivity|].
  exact (stream_ends_with_single_error 3 Fixture.stray_request "Anything?"
           Fixture.full_config (module_state ∅) Fixture.ready r
           (KeyError "no_such_tool") Hinit Hr He).
Defined.

(** ** Missing configuration *)

(** C6.  A call made while the agent is not initialized, with a
    configuration that is not complete, returns the fixed
    configuration-required text as an ordinary value, leaves every
    global as it was, and starts neither a model invocation nor a tool
    dispatch. *)
Theorem run_agent_requires_configuration fuel w question c st :
  _initialized st = false ->
  all_config c = false ->
  run_agent fuel w question c st =
    Some (mkTurn
      "Error: Agent not initialized. Please provide all configuration parameters."
      st 0%nat 0%nat).
Proof.
  intros Hinit Hcfg. unfold run_agent, ensure_initialized.
  rewrite Hinit, Hcfg. reflexivity.
Qed.

Lemma run_agent_requires_configuration_witness :
  _initialized (module_state ∅) = false
  /\ all_config Fixture.no_password = false
  /\ run_agent 5 Fixture.two_rounds "What is reported for TRAMADOL?"
       Fixture.no_password (module_state ∅) =
     Some (mkTurn
       "Error: Agent not initialized. Please provide all configuration parameters."
       (module_state ∅) 0%nat 0%nat).
Proof.
  split; [reflexivity|]. split; [reflexivity|].
  apply (run_agent_requires_configuration 5 Fixture.two_rounds
           "What is reported for TRAMADOL?" Fixture.no_password
           (module_state ∅)); reflexivity.
Defined.

(** ** Initialization *)

Lemma initialize_completed w k u n p st st1 :
  initialize_agent_with_config w k u n p st = (Ok tt, st1) ->
  _initialized st1 = true.
Proof.
  unfold initialize_agent_with_config.
  destruct (_initialized st) eqn:H; [intros [= <-]; exact H|].
  destruct (environ_set _ k _); [|discriminate].
  destruct (environ_set _ u _); [|discriminate].
  destruct (environ_set _ n _); [|discriminate].
  destruct (environ_set _ p _); [|discriminate].
  intros [= <-]. reflexivity.
Qed.

(** A setup that raises leaves the flag and every global but the
    environment as they were. *)
Lemma initialize_raised w k u n p st e st1 :
  initialize_agent_with_config w k u n p st = (Raise e, st1) ->
  _initialized st = false
  /\ exists env, st1 = with_environ st env.
Proof.
  unfold initialize_agent_with_config.
  destruct (_initialized st) eqn:H; [discriminate|].
  split; [reflexivity|].
  destruct (environ_set _ k _).
  2:{ injection H0 as _ <-. exists (environ st). destruct st; reflexivity. }
  destruct (environ_set _ u _); [|injection H0 as _ <-; eauto].
  destruct (environ_set _ n _); [|injection H0 as _ <-; eauto].
  destruct (environ_set _ p _); [discriminate|injection H0 as _ <-; eauto].
Qed.



(** C7.  When a first call of the setup completes, the agent is
    initialized, and a second call, whatever its arguments and whatever
    the outside world then looks like, completes and returns the state
    unchanged: model, tool objects, tool list, registry, flag and
    environment are those of the first call, and nothing is consulted
    again. *)
Theorem initialize_twice_is_noop w1 w2 k1 u1 n1 p1 k2 u2 n2 p2 st st1 :
  initialize_agent_with_config w1 k1 u1 n1 p1 st = (Ok tt, st1) ->
  _initialized st1 = true
  /\ initialize_agent_with_config w2 k2 u2 n2 p2 st1 = (Ok tt, st1).
Proof.
  intros H1. assert (H : _initialized st1 = true)
    by (eapply initialize_completed; eauto).
  split; [exact H|].
  unfold initialize_agent_with_config. rewrite H. reflexivity.
Qed.

Lemma initialize_twice_is_noop_witness :
  initialize_agent_with_config Fixture.quiet
    "sk-test" "bolt://localhost:7687" "neo4j" "secret" (module_state ∅)
  = (Ok tt, Fixture.ready)
  /\ _initialized Fixture.ready = true
  /\ initialize_agent_with_config Fixture.two_rounds
       "sk-other" "bolt://elsewhere:7687" "admin" "changed" Fixture.ready
     = (Ok tt, Fixture.ready).
Proof.
  assert (H : initialize_agent_with_config Fixture.quiet
            "sk-test" "bolt://localhost:7687" "neo4j" "secret"
            (module_state ∅) = (Ok tt, Fixture.ready))
    by (vm_compute; reflexivity).
  split; [exact H|].
  exact (initialize_twice_is_noop Fixture.quiet Fixture.two_rounds
           _ _ _ _ "sk-other" "bolt://elsewhere:7687" "admin" "changed"
           _ _ H).
Defined.




Lemma registry_lookup_fda :
  registry [Tool_fda; Tool_neo4j; Tool_pdf] !! "fda_adverse_events_tool"
  = Some Tool_fda.
Proof. reflexivity. Qed.


Lemma registry_lookup_pdf :
  registry [Tool_fda; Tool_neo4j; Tool_pdf] !! "pdf_search_tool"
  = Some Tool_pdf.
Proof. reflexivity. Qed.




(** ** Failing tools *)

Lemma dispatch_position w st tc before after :
  forall tick results,
    collect (dispatch w st tick (before ++ tc :: after)%list) = Ok results ->
    exists m,
      call_tool w st (tick + length before)%nat tc = Ok m /\ In m results.
Proof.
  induction before as [|b before IH]; intros tick results; simpl.
  - rewrite Nat.add_0_r.
    destruct (call_tool w st tick tc) as [m|e]; simpl; [|discriminate].
    destruct (collect _) as [ms|e]; simpl; [|discriminate].
    intros [= <-]. exists m. split; [reflexivity|left; reflexivity].
  - destruct (call_tool w st tick b) as [mb|e]; simpl; [|discriminate].
    destruct (collect _) as [ms|e] eqn:Hms; simpl; [|discriminate].
    intros [= <-]. destruct (IH _ _ Hms) as (m & Hm & Hin).
    exists m. split; [|right; exact Hin].
    rewrite <- Hm. f_equal. lia.
Qed.

Lemma callable_raises_validates w st tick t args e :
  callable_raises w st tick t args e -> validates w t args = true.
Proof.
  destruct 1 as [? ? ? ? Hb|? ? ? ? ? Hb|? ? ? ? ? Hb]; simpl in *;
    rewrite Hb; reflexivity.
Qed.

(** What a registered tool returns when the callable behind it raises. *)
Lemma tool_invoke_contains w st tick t args e :
  callable_raises w st tick t args e ->
  exists pfx,
    String.prefix "Error" (pfx ++ exn_str e) = true
    /\ tool_invoke w st tick t args = Ok (pfx ++ exn_str e).
Proof.
  destruct 1 as [args d l e Hb He|args q nt c e Hb Hnt Hc He
                 |args q pt vs e Hb Hpt Hvs He]; simpl in *.
  - exists "Error retrieving FDA data: ". split; [reflexivity|].
    rewrite Hb. simpl. unfold fda_adverse_events_tool. rewrite He.
    reflexivity.
  - exists "Error: ". split; [reflexivity|].
    rewrite Hb. simpl. unfold neo4j_query_tool, Neo4jTool.ask_question.
    rewrite Hnt, Hc, He. reflexivity.
  - exists "Error searching PDF: ". split; [reflexivity|].
    rewrite Hb. simpl. unfold pdf_search_tool.
    rewrite Hpt, Hvs, He. reflexivity.
Qed.

(** Counterexample to C5 as stated.  The callable behind the registered
    adverse-event tool raises and its dispatch returns an error text,
    yet the loop does not proceed to the next model round: the same
    batch holds a request for a name that is not registered, the turn
    stops with that exception after a single model invocation and the
    history is left as it was. *)
Lemma failing_tool_beside_unknown_request :
  tools_by_name Fixture.ready !! "fda_adverse_events_tool" = Some Tool_fda
  /\ callable_raises Fixture.mixed_turn Fixture.ready 0 Tool_fda
       (tc_args (Fixture.ask_fda "TRAMADOL" "call_1"))
       (ExternalError "connection refused")
  /\ In (Fixture.ask_fda "TRAMADOL" "call_1")
       (ai_tool_calls Fixture.mixed_requests)
  /\ call_tool Fixture.mixed_turn Fixture.ready 0
       (Fixture.ask_fda "TRAMADOL" "call_1")
     = Ok (mkToolMessage "Error retrieving FDA data: connection refused"
             "call_1")
  /\ option_map (fun r => (outcome r, history r, model_calls r))
       (agent 5 Fixture.mixed_turn Fixture.ready [Human "Anything?"])
     = Some (Raise (KeyError "no_such_tool"), [Human "Anything?"], 1%nat)
  /\ option_map (fun t => (returned t, turn_model_calls t))
       (run_agent 5 Fixture.mixed_turn "Anything?" Fixture.full_config
          (module_state ∅))
     = Some ("Error running agent: 'no_such_tool'", 1%nat).
Proof.
  split; [vm_compute; reflexivity|].
  split; [apply (fda_raises _ _ _ _ "TRAMADOL" 10); reflexivity|].
  split; [left; reflexivity|].
  repeat split; vm_compute; reflexivity.
Qed.

(** C5 (as the code has it).  When the callable behind a registered tool
    raises [e] during a dispatch, the dispatch returns a tool result
    whose text starts with "Error" and ends with the description of
    [e]; and a round whose batch contains that request, the other
    requests being dispatchable, appends the result to the history and
    invokes the model again. *)
Theorem tool_failure_is_contained w st tick tc t e :
  tools_by_name st !! tc_name tc = Some t ->
  callable_raises w st tick t (tc_args tc) e ->
  exists pfx,
    String.prefix "Error" (pfx ++ exn_str e) = true
    /\ call_tool w st tick tc
       = Ok (mkToolMessage (pfx ++ exn_str e) (tc_id tc))
    /\ forall fuel emitted round tick0 messages a before after,
         ai_tool_calls a = (before ++ tc :: after)%list ->
         tick = (tick0 + length before)%nat ->
         Forall (dispatchable w st) before ->
         Forall (dispatchable w st) after ->
         exists results,
           In (mkToolMessage (pfx ++ exn_str e) (tc_id tc)) results
           /\ agent_loop (S fuel) w st emitted round tick0 messages a =
                let history' :=
                  (messages ++ AI a :: map Tool results)%list in
                let emitted' :=
                  (emitted
                   ++ tool_steps
                        (dispatch w st tick0 (ai_tool_calls a)))%list in
                let tick' := (tick0 + length (ai_tool_calls a))%nat in
                match call_model w st round history' with
                | Raise e' =>
                    Some (mkRun emitted' history' (Raise e') (S round) tick')
                | Ok a' =>
                    agent_loop fuel w st
                      (emitted' ++ [mkStep "call_model" (AI a')])%list
                      (S round) tick' history' a'
                end.
Proof.
  intros Ht Hraise.
  destruct (tool_invoke_contains _ _ _ _ _ _ Hraise) as (pfx & Hpfx & Hinv).
  exists pfx. split; [exact Hpfx|].
  assert (Hcall : call_tool w st tick tc
                  = Ok (mkToolMessage (pfx ++ exn_str e) (tc_id tc))).
  { rewrite (call_tool_registered _ _ _ _ _ Ht), Hinv. reflexivity. }
  split; [exact Hcall|].
  intros fuel emitted round tick0 messages a before after Hcalls Htick Hb Ha.
  assert (Hall : Forall (dispatchable w st) (ai_tool_calls a)).
  { rewrite Hcalls. apply Forall_app. split; [exact Hb|].
    constructor; [|exact Ha]. exists t. split; [exact Ht|].
    eapply callable_raises_validates; eauto. }
  destruct (dispatch_returns w st _ Hall tick0) as [results Hres].
  exists results. split.
  - rewrite Hcalls in Hres.
    destruct (dispatch_position _ _ _ _ _ _ _ Hres) as (m & Hm & Hin).
    rewrite <- Htick, Hcall in Hm. injection Hm as <-. exact Hin.
  - apply agent_loop_batch; [|exact Hres].
    rewrite Hcalls. intros Hnil. apply app_eq_nil in Hnil as [_ Hnil].
    discriminate.
Qed.

Lemma tool_failure_is_contained_witness :
  tools_by_name Fixture.ready !! "fda_adverse_events_tool" = Some Tool_fda
  /\ callable_raises Fixture.two_rounds Fixture.ready 0 Tool_fda
       [("drug_name", JStr "TRAMADOL")] (ExternalError "connection refused")
  /\ Forall (dispatchable Fixture.two_rounds Fixture.ready)
       [Fixture.ask_graph "call_2"]
  /\ exists pfx,
       String.prefix "Error" (pfx ++ "connection refused") = true
       /\ call_tool Fixture.two_rounds Fixture.ready 0
            (Fixture.ask_fda "TRAMADOL" "call_1")
          = Ok (mkToolMessage (pfx ++ "connection refused") "call_1")
       /\ exists results,
            In (mkToolMessage (pfx ++ "connection refused") "call_1") results
            /\ option_map
                 (fun r => (history r, outcome r, model_calls r))
                 (agent_loop 2 Fixture.two_rounds Fixture.ready [] 1 0
                    [Human "What is reported?"] Fixture.two_requests)
               = Some ([Human "What is reported?"; AI Fixture.two_requests]
                       ++ map Tool results,
                       Ok (Fixture.final "No events were retrieved."),
                       2%nat)%list.
Proof.
  assert (Ht : tools_by_name Fixture.ready
               !! tc_name (Fixture.ask_fda "TRAMADOL" "call_1")
               = Some Tool_fda) by (vm_compute; reflexivity).
  assert (Hr : callable_raises Fixture.two_rounds Fixture.ready 0 Tool_fda
                 (tc_args (Fixture.ask_fda "TRAMADOL" "call_1"))
                 (ExternalError "connection refused")).
  { apply (fda_raises _ _ _ _ "TRAMADOL" 10); reflexivity. }
  assert (Hafter : Forall (dispatchable Fixture.two_rounds Fixture.ready)
                     [Fixture.ask_graph "call_2"]).
  { repeat constructor. exists Tool_neo4j. split; vm_compute; reflexivity. }
  split; [exact Ht|]. split; [exact Hr|]. split; [exact Hafter|].
  destruct (tool_failure_is_contained Fixture.two_rounds Fixture.ready 0
              (Fixture.ask_fda "TRAMADOL" "call_1") Tool_fda
              (ExternalError "connection refused") Ht Hr)
    as (pfx & Hpfx & Hcall & Hloop).
  exists pfx. split; [exact Hpfx|]. split; [exact Hcall|].
  destruct (Hloop 1%nat [] 1%nat 0%nat [Human "What is reported?"]
              Fixture.two_requests [] [Fixture.ask_graph "call_2"]
              eq_refl eq_refl
              (List.Forall_nil (dispatchable Fixture.two_rounds Fixture.ready))
              Hafter)
    as (results & Hin & Heq).
  exists results. split; [exact Hin|].
  rewrite Heq. reflexivity.
Defined.

(** ** Requests for tools that are not registered *)

Lemma dispatch_first_failure w st tc e before after :
  Forall (dispatchable w st) before ->
  forall tick,
    call_tool w st (tick + length before)%nat tc = Raise e ->
    collect (dispatch w st tick (before ++ tc :: after)%list) = Raise e.
Proof.
  induction 1 as [|b before Hb _ IH]; intros tick Htc; simpl.
  - rewrite Nat.add_0_r in Htc. rewrite Htc. reflexivity.
  - destruct (call_tool_returns w st tick b Hb) as [text ->]. simpl.
    rewrite IH; [reflexivity|].
    rewrite <- Htc. f_equal. simpl. lia.
Qed.

(** A batch that holds a request whose dispatch always raises does not
    return. *)
Lemma dispatch_with_failing_request w st tc calls :
  (forall tick, is_ok (call_tool w st tick tc) = false) ->
  In tc calls ->
  forall tick, exists e, collect (dispatch w st tick calls) = Raise e.
Proof.
  intros Hfail. induction calls as [|c rest IH]; simpl; [tauto|].
  intros Hin tick.
  destruct (call_tool w st tick c) as [m|e] eqn:Hc; simpl; [|eauto].
  destruct Hin as [->|Hin].
  - specialize (Hfail tick). rewrite Hc in Hfail. discriminate.
  - destruct (IH Hin (S tick)) as [e ->]. simpl. eauto.
Qed.

Lemma unknown_not_dispatchable w st tc calls :
  tools_by_name st !! tc_name tc = None ->
  Forall (dispatchable w st) calls -> In tc calls -> False.
Proof.
  intros Hnone Hall Hin. apply (proj2 (list_elem_of_In _ _)) in Hin.
  destruct (proj1 (Forall_forall _ _) Hall tc Hin) as (t & Ht & _).
  congruence.
Qed.

Lemma tool_steps_not_model futs a :
  ~ In (mkStep "call_model" (AI a)) (tool_steps futs).
Proof.
  induction futs as [|[m|e] rest IH]; simpl; [tauto| |exact IH].
  intros [H|H]; [discriminate|auto].
Qed.

(** If a response streamed by an execution carries a request for a name
    that is not registered, the execution ended with an exception. *)
Lemma agent_loop_unknown w st fuel :
  forall emitted round tick messages a r pre,
    agent_loop fuel w st emitted round tick messages a = Some r ->
    emitted = (pre ++ [mkStep "call_model" (AI a)])%list ->
    (forall a', In (mkStep "call_model" (AI a')) pre ->
                Forall (dispatchable w st) (ai_tool_calls a')) ->
    forall a' tc,
      In (mkStep "call_model" (AI a')) (steps r) ->
      In tc (ai_tool_calls a') ->
      tools_by_name st !! tc_name tc = None ->
      exists e,
        outcome r = Raise e
        /\ (tools_by_name st <> ∅ ->
            forall before after,
              ai_tool_calls a' = (before ++ tc :: after)%list ->
              Forall (dispatchable w st) before ->
              e = KeyError (tc_name tc)).
Proof.
  induction fuel as [|fuel IH];
    intros emitted round tick messages a r pre Hr -> Hpre a' tc Hin Htc Hnone;
    [discriminate|].
  assert (Hold : In (mkStep "call_model" (AI a')) pre -> False).
  { intros H. eapply unknown_not_dispatchable; [exact Hnone| |exact Htc].
    apply Hpre. exact H. }
  destruct (ai_tool_calls a) as [|c rest] eqn:Hcalls.
  - rewrite agent_loop_final in Hr by assumption. injection Hr as <-.
    simpl in Hin. exfalso.
    apply in_app_or in Hin as [Hin|Hin].
    + apply in_app_or in Hin as [Hin|Hin]; [auto|].
      destruct Hin as [Hin|[]]. injection Hin as <-.
      rewrite Hcalls in Htc. exact Htc.
    + destruct Hin as [Hin|[]]. discriminate.
  - assert (Hne : ai_tool_calls a <> []) by congruence.
    set (futs := dispatch w st tick (ai_tool_calls a)) in *.
    assert (Hsteps : In (mkStep "call_model" (AI a'))
                       ((pre ++ [mkStep "call_model" (AI a)])
                        ++ tool_steps futs)%list ->
                     a' = a).
    { intros H. apply in_app_or in H as [H|H].
      - apply in_app_or in H as [H|H]; [exfalso; auto|].
        destruct H as [H|[]]. injection H as <-. reflexivity.
      - exfalso. eapply tool_steps_not_model; eauto. }
    destruct (collect futs) as [results|e] eqn:Hres.
    + pose proof (dispatch_ok_dispatchable _ _ _ _ _ Hres) as Hdisp.
      rewrite (agent_loop_batch _ _ _ _ _ _ _ _ results) in Hr
        by assumption.
      cbv zeta in Hr. fold futs in Hr.
      destruct (call_model w st round _) as [a2|e] eqn:Hnext.
      * eapply (IH _ _ _ _ _ _ _ Hr eq_refl); [|exact Hin|exact Htc|exact Hnone].
        intros a3 H3. apply in_app_or in H3 as [H3|H3].
        -- apply in_app_or in H3 as [H3|H3]; [auto|].
           destruct H3 as [H3|[]]. injection H3 as <-. exact Hdisp.
        -- exfalso. eapply tool_steps_not_model; eauto.
      * injection Hr as <-. simpl in Hin. exfalso.
        rewrite (Hsteps Hin) in Htc.
        eapply unknown_not_dispatchable; eauto.
    + rewrite (agent_loop_abort _ _ _ _ _ _ _ _ e) in Hr by assumption.
      fold futs in Hr. injection Hr as <-. simpl in Hin.
      exists e. split; [reflexivity|].
      intros Hreg before after Hsplit Hbefore.
      rewrite (Hsteps Hin) in Hsplit.
      assert (Hk : collect futs = Raise (KeyError (tc_name tc))).
      { unfold futs. rewrite Hsplit.
        apply dispatch_first_failure; [exact Hbefore|].
        unfold call_tool. destruct (decide _); [contradiction|].
        rewrite Hnone. reflexivity. }
      congruence.
Qed.

(** Counterexample to C4 as stated.  The request of
    [Fixture.stray_request] is not dispatched to any handler: the lookup
    raises, the loop stops with that exception after a single model
    invocation, and the scripted answer is never asked for. *)
Lemma unknown_tool_aborts_turn :
  tools_by_name Fixture.ready !! "no_such_tool" = None
  /\ ~ (exists m, call_tool Fixture.stray_request Fixture.ready 0
                    (Fixture.ask_unknown "call_1") = Ok m)
  /\ call_tool Fixture.stray_request Fixture.ready 0
       (Fixture.ask_unknown "call_1") = Raise (KeyError "no_such_tool")
  /\ option_map (fun r => (outcome r, history r, model_calls r))
       (agent 5 Fixture.stray_request Fixture.ready [Human "Anything?"])
     = Some (Raise (KeyError "no_such_tool"), [Human "Anything?"], 1%nat)
  /\ option_map (fun t => (returned t, turn_model_calls t))
       (run_agent 5 Fixture.stray_request "Anything?" Fixture.full_config
          (module_state ∅))
     = Some ("Error running agent: 'no_such_tool'", 1%nat).
Proof.
  assert (Hcall : call_tool Fixture.stray_request Fixture.ready 0
            (Fixture.ask_unknown "call_1") = Raise (KeyError "no_such_tool"))
    by (vm_compute; reflexivity).
  split; [vm_compute; reflexivity|].
  split; [intros [m Hm]; rewrite Hcall in Hm; discriminate|].
  split; [exact Hcall|].
  split; vm_compute; reflexivity.
Qed.

(** C4 (as the code has it).  A request whose tool name is absent from a
    non-empty registry makes the dispatch raise a [KeyError] that
    carries the name, and nothing handles it inside the loop.  A round
    whose batch holds such a request stops the loop with an exception,
    the one of the first dispatch of the batch that raises, which is
    that [KeyError] when the requests before it are dispatchable; the
    history is left as it was and the model is not invoked again.  A
    turn in which any streamed response carried such a request ends
    with that exception: [run_agent] returns the text
    "Error running agent: " followed by [str] of the exception, and the
    stream of [run_agent_with_streaming] closes with the single error
    event of that text. *)
Theorem unknown_tool_raises_key_error w st tc :
  tools_by_name st <> ∅ ->
  tools_by_name st !! tc_name tc = None ->
  (forall tick, call_tool w st tick tc = Raise (KeyError (tc_name tc)))
  /\ (forall fuel emitted round tick messages a,
        In tc (ai_tool_calls a) ->
        exists e r,
          agent_loop (S fuel) w st emitted round tick messages a = Some r
          /\ outcome r = Raise e
          /\ history r = messages
          /\ model_calls r = round
          /\ (forall before after,
                ai_tool_calls a = (before ++ tc :: after)%list ->
                Forall (dispatchable w st) before ->
                e = KeyError (tc_name tc)))
  /\ (forall fuel question c st0 r a,
        ensure_initialized w c st0 = Some (Ok tt, st) ->
        agent fuel w st [Human question] = Some r ->
        In (mkStep "call_model" (AI a)) (steps r) ->
        In tc (ai_tool_calls a) ->
        exists e,
          outcome r = Raise e
          /\ (forall before after,
                ai_tool_calls a = (before ++ tc :: after)%list ->
                Forall (dispatchable w st) before ->
                e = KeyError (tc_name tc))
          /\ option_map returned (run_agent fuel w question c st0)
             = Some ("Error running agent: " ++ exn_str e)
          /\ exists evs,
               option_map returned
                 (run_agent_with_streaming fuel w question c st0)
               = Some (evs ++ [mkEvent "error"
                                 ("Error running agent: " ++ exn_str e)
                                 "error" true])%list
               /\ Forall
                    (fun ev => is_final ev = false /\ step_type ev <> "error")
                    evs).
Proof.
  intros Hne Hnone.
  assert (Hcall : forall k, call_tool w st k tc = Raise (KeyError (tc_name tc))).
  { intros k. unfold call_tool.
    destruct (decide (tools_by_name st = ∅)); [contradiction|].
    rewrite Hnone. reflexivity. }
  split; [exact Hcall|]. split.
  - intros fuel emitted round tick messages a Hin.
    destruct (dispatch_with_failing_request w st tc (ai_tool_calls a)
                ltac:(intros k; rewrite Hcall; reflexivity) Hin tick)
      as [e He].
    exists e. eexists. split; [apply agent_loop_abort; exact He|].
    simpl. repeat split.
    intros before after Hsplit Hbefore.
    rewrite Hsplit in He.
    rewrite (dispatch_first_failure w st tc _ before after Hbefore tick
               (Hcall _)) in He.
    congruence.
  - intros fuel question c st0 r a Hinit Hr Hstep Hin.
    assert (Hex : exists e,
              outcome r = Raise e
              /\ (tools_by_name st <> ∅ ->
                  forall before after,
                    ai_tool_calls a = (before ++ tc :: after)%list ->
                    Forall (dispatchable w st) before ->
                    e = KeyError (tc_name tc))).
    { revert Hr. unfold agent.
      destruct (call_model w st 0 [Human question]) as [a0|e0].
      - intros Hr.
        eapply (agent_loop_unknown w st fuel _ _ _ _ _ _ [] Hr eq_refl);
          [intros a' []|exact Hstep|exact Hin|exact Hnone].
      - intros [= <-]. destruct Hstep. }
    destruct Hex as (e & Hout & Hkey).
    exists e. split; [exact Hout|]. split; [exact (Hkey Hne)|].
    destruct (agent_stream _ _ _ _ _ Hr) as (evs & Hevs & Hquiet).
    unfold run_agent, run_agent_with_streaming. rewrite Hinit, Hr. simpl.
    rewrite Hout. split; [reflexivity|].
    exists evs. rewrite Hevs, Hout. split; [reflexivity|exact Hquiet].
Qed.

Lemma unknown_tool_raises_key_error_witness :
  tools_by_name Fixture.ready <> ∅
  /\ tools_by_name Fixture.ready !! "no_such_tool" = None
  /\ call_tool Fixture.stray_request Fixture.ready 4
       (Fixture.ask_unknown "call_1")
     = Raise (KeyError "no_such_tool")
  /\ (exists r,
        agent_loop 1 Fixture.stray_request Fixture.ready [] 1 0
          [Human "Anything?"]
          (Fixture.requesting
             [Fixture.ask_pdf "call_8"; Fixture.ask_unknown "call_1"])
        = Some r
        /\ outcome r = Raise (KeyError "no_such_tool")
        /\ history r = [Human "Anything?"]
        /\ model_calls r = 1%nat)
  /\ option_map returned
       (run_agent 5 Fixture.stray_request "Anything?" Fixture.full_config
          (module_state ∅))
     = Some "Error running agent: 'no_such_tool'"
  /\ exists evs,
       option_map returned
         (run_agent_with_streaming 5 Fixture.stray_request "Anything?"
            Fixture.full_config (module_state ∅))
       = Some (evs ++ [mkEvent "error" "Error running agent: 'no_such_tool'"
                         "error" true])%list.
Proof.
  assert (Hne : tools_by_name Fixture.ready <> ∅).
  { apply (registry_nonempty _ "pdf_search_tool" Tool_pdf).
    vm_compute; reflexivity. }
  assert (Hnone : tools_by_name Fixture.ready
                  !! tc_name (Fixture.ask_unknown "call_1") = None)
    by (vm_compute; reflexivity).
  split; [exact Hne|]. split; [exact Hnone|].
  destruct (unknown_tool_raises_key_error Fixture.stray_request Fixture.ready
              (Fixture.ask_unknown "call_1") Hne Hnone)
    as (Hcall & Hloop & Hturn).
  split; [exact (Hcall 4%nat)|].
  split.
  - destruct (Hloop 0%nat [] 1%nat 0%nat [Human "Anything?"]
                (Fixture.requesting
                   [Fixture.ask_pdf "call_8"; Fixture.ask_unknown "call_1"])
                (or_intror (or_introl eq_refl)))
      as (e & r & Hr & Hout & Hhist & Hcalls & Hkey).
    assert (Hpdf : Forall (dispatchable Fixture.stray_request Fixture.ready)
                     [Fixture.ask_pdf "call_8"]).
    { repeat constructor. exists Tool_pdf. split; vm_compute; reflexivity. }
    rewrite (Hkey [Fixture.ask_pdf "call_8"] [] eq_refl Hpdf) in Hout.
    exists r. auto.
  - assert (Hinit : ensure_initialized Fixture.stray_request
                      Fixture.full_config (module_state ∅)
                    = Some (Ok tt, Fixture.ready))
      by (vm_compute; reflexivity).
    destruct (agent 5 Fixture.stray_request Fixture.ready
                [Human "Anything?"]) as [r|] eqn:Hr;
      [|vm_compute in Hr; discriminate].
    assert (Hstep : In (mkStep "call_model"
                          (AI (Fixture.requesting
                                 [Fixture.ask_unknown "call_1"])))
                       (steps r)).
    { vm_compute in Hr. injection Hr as <-. left. reflexivity. }
    destruct (Hturn 5%nat "Anything?" Fixture.full_config (module_state ∅)
                r (Fixture.requesting [Fixture.ask_unknown "call_1"])
                Hinit Hr Hstep (or_introl eq_refl))
      as (e & _ & Hkey & Htext & evs & Hevs & _).
    rewrite (Hkey [] [] eq_refl
               (List.Forall_nil
                  (dispatchable Fixture.stray_request Fixture.ready)))
      in Htext, Hevs.
    split; [exact Htext|]. exists evs. exact Hevs.
Defined.

(** ** The safety-event lookup *)

(** C8 (the code at a query other than TRAMADOL).  Asked about ASPIRIN,
    with one report on ASPIRIN returned by the API, the lookup produces
    one record whose [drug_names] list is empty: names are kept only
    when they contain TRAMADOL, whatever was asked.  The same report on
    a tramadol product keeps its name. *)
Theorem drug_names_keep_only_tramadol :
  FdaTool.get_adverse_events (Fixture.reporting "ASPIRIN") 0 "ASPIRIN" 1
  = Ok [ JObj [ ("receivedate", JStr "20240105");
                ("safetyreportid", JStr "23456789");
                ("drug_names", JArr []);
                ("reactions", JArr [JStr "Nausea"]);
                ("outcomes", JArr [JStr "N/A"]) ] ]
  /\ FdaTool.get_adverse_events (Fixture.reporting "Tramadol HCl") 0
       "TRAMADOL" 1
     = Ok [ JObj [ ("receivedate", JStr "20240105");
                   ("safetyreportid", JStr "23456789");
                   ("drug_names", JArr [JStr "Tramadol HCl"]);
                   ("reactions", JArr [JStr "Nausea"]);
                   ("outcomes", JArr [JStr "N/A"]) ] ].
Proof. split; vm_compute; reflexivity. Qed.

(** * Further properties of the code *)

(** ** The safety-event lookup *)

Lemma for_each_results {A B} (f : A -> res B) l bs :
  for_each f l = Ok bs -> Forall2 (fun a b => f a = Ok b) l bs.
Proof.
  revert bs. induction l as [|a l IH]; intros bs H; simpl in H.
  - injection H as <-. constructor.
  - res_inv H. res_inv H. injection H as <-. constructor; auto.
Qed.

Lemma for_each_first_failure {A B} (f : A -> res B) l a :
  In a l -> is_ok (f a) = false -> is_ok (for_each f l) = false.
Proof.
  induction l as [|b l IH]; simpl; [tauto|].
  intros [->|Hin] Ha.
  - destruct (f a); [discriminate|reflexivity].
  - destruct (f b); [|reflexivity]. simpl.
    specialize (IH Hin Ha). destruct (for_each f l); [discriminate|reflexivity].
Qed.

Lemma drug_entry_kept drug names :
  FdaTool.drug_entry drug = Ok names -> Forall kept_name names.
Proof.
  unfold FdaTool.drug_entry. intros H. res_inv H.
  destruct a as [| | |s| |]; try discriminate.
  destruct (str_contains "TRAMADOL" (upper s)) eqn:Hs;
    injection H as <-; repeat constructor.
  exists s. auto.
Qed.

Lemma extract_shape result rec :
  FdaTool.extract result = Ok rec ->
  exists date id names reactions outcomes,
    rec = report_record date id names reactions outcomes
    /\ dict_get result "receivedate" (JStr "N/A") = Ok date
    /\ dict_get result "safetyreportid" (JStr "N/A") = Ok id
    /\ Forall kept_name names
    /\ length reactions = length outcomes.
Proof.
  unfold FdaTool.extract. intros H.
  res_inv H. res_inv H. res_inv H. res_inv H. res_inv H. res_inv H.
  injection H as <-.
  eexists _, _, _, _, _. split; [reflexivity|].
  split; [assumption|]. split; [assumption|]. split.
  - apply for_each_results in E2.
    clear -E2. induction E2 as [|d ns ds nss Hd _ IH]; simpl.
    + constructor.
    + apply Forall_app. split; [|exact IH].
      eapply drug_entry_kept; eauto.
  - rewrite !length_map. reflexivity.
Qed.

(** X1.  When the API body is a dict whose ["results"] is a list and the
    lookup returns, it returns one record per item of that list, in the
    same order, and the i-th record carries the date and the report
    identifier of the i-th item ("N/A" where the item has none). *)
Theorem fda_one_record_per_result w tick drug_name limit fs items recs :
  w_http_get_json w tick (FdaTool.url drug_name limit) = Ok (JObj fs) ->
  assoc "results" fs = Some (JArr items) ->
  FdaTool.get_adverse_events w tick drug_name limit = Ok recs ->
  length recs = length items
  /\ Forall2
       (fun item rec =>
          exists fields rfields,
            item = JObj fields /\ rec = JObj rfields
            /\ assoc "receivedate" rfields
               = Some (default (JStr "N/A") (assoc "receivedate" fields))
            /\ assoc "safetyreportid" rfields
               = Some (default (JStr "N/A") (assoc "safetyreportid" fields)))
       items recs.
Proof.
  intros Hhttp Hres. unfold FdaTool.get_adverse_events.
  rewrite Hhttp. simpl. rewrite Hres. simpl. intros H.
  apply for_each_results in H.
  split; [symmetry; eapply Forall2_length; eauto|].
  eapply Forall2_impl; [exact H|].
  intros item rec Hex. simpl in Hex.
  destruct (extract_shape _ _ Hex)
    as (date & id & names & rs & os & -> & Hd & Hi & _).
  destruct item as [| | | | |fields]; try discriminate.
  simpl in Hd, Hi. injection Hd as <-. injection Hi as <-.
  eexists _, _. split; [reflexivity|]. split; [reflexivity|].
  split; reflexivity.
Qed.

Lemma fda_one_record_per_result_witness :
  w_http_get_json (Fixture.reporting "ASPIRIN") 0
    (FdaTool.url "ASPIRIN" 5)
  = Ok (JObj [("results", JArr [Fixture.report "ASPIRIN"])])
  /\ exists recs,
       FdaTool.get_adverse_events (Fixture.reporting "ASPIRIN") 0 "ASPIRIN" 5
       = Ok recs
       /\ length recs = 1%nat.
Proof.
  split; [reflexivity|].
  destruct (FdaTool.get_adverse_events (Fixture.reporting "ASPIRIN") 0
              "ASPIRIN" 5) as [recs|e] eqn:Hrecs;
    [|vm_compute in Hrecs; discriminate].
  exists recs. split; [reflexivity|].
  exact (proj1 (fda_one_record_per_result (Fixture.reporting "ASPIRIN") 0
                  "ASPIRIN" 5 _ [Fixture.report "ASPIRIN"] recs
                  eq_refl eq_refl Hrecs)).
Defined.

(** X2.  Every record the lookup returns is a dict with the five keys
    receivedate, safetyreportid, drug_names, reactions, outcomes, in this
    order; its reactions and outcomes lists have the same length; and
    every entry of drug_names is a string that contains TRAMADOL once
    upper-cased. *)
Theorem fda_record_invariants w tick drug_name limit recs :
  FdaTool.get_adverse_events w tick drug_name limit = Ok recs ->
  Forall (fun rec =>
            exists date id names reactions outcomes,
              rec = report_record date id names reactions outcomes
              /\ Forall kept_name names
              /\ length reactions = length outcomes) recs.
Proof.
  unfold FdaTool.get_adverse_events. intros H.
  res_inv H. res_inv H. res_inv H.
  apply for_each_results in H. clear E E0 E1.
  induction H as [|item rec items recs Hex _ IH]; [constructor|].
  constructor; [|exact IH].
  destruct (extract_shape _ _ Hex)
    as (date & id & names & rs & os & -> & _ & _ & Hk & Hl).
  eexists _, _, _, _, _. eauto.
Qed.

Lemma fda_record_invariants_witness :
  exists recs,
    FdaTool.get_adverse_events (Fixture.reporting "Tramadol HCl") 0
      "TRAMADOL" 5 = Ok recs
    /\ Forall (fun rec =>
                 exists date id names reactions outcomes,
                   rec = report_record date id names reactions outcomes
                   /\ Forall kept_name names
                   /\ length reactions = length outcomes) recs.
Proof.
  destruct (FdaTool.get_adverse_events (Fixture.reporting "Tramadol HCl") 0
              "TRAMADOL" 5) as [recs|e] eqn:Hrecs;
    [|vm_compute in Hrecs; discriminate].
  exists recs. split; [reflexivity|].
  exact (fda_record_invariants _ _ _ _ _ Hrecs).
Defined.

(** X3.  A body that is a dict without a ["results"] key, such as the
    error body of the API, is not an error for the lookup: it returns the
    empty list, and the tool hands the model the serialized empty list,
    not an error text. *)
Theorem fda_missing_results_is_empty w tick drug_name limit fs :
  w_http_get_json w tick (FdaTool.url drug_name limit) = Ok (JObj fs) ->
  assoc "results" fs = None ->
  FdaTool.get_adverse_events w tick drug_name limit = Ok []
  /\ forall dumped,
       w_json_dumps w (JArr []) = Ok dumped ->
       fda_adverse_events_tool w tick drug_name limit = Ok dumped.
Proof.
  intros Hhttp Hres.
  assert (H : FdaTool.get_adverse_events w tick drug_name limit = Ok []).
  { unfold FdaTool.get_adverse_events. rewrite Hhttp. simpl.
    rewrite Hres. reflexivity. }
  split; [exact H|].
  intros dumped Hd. unfold fda_adverse_events_tool.
  rewrite H. simpl. rewrite Hd. reflexivity.
Qed.

Lemma fda_missing_results_is_empty_witness :
  w_http_get_json Sample.no_match 0 (FdaTool.url "NOSUCHDRUG" 10)
  = Ok Sample.not_found
  /\ FdaTool.get_adverse_events Sample.no_match 0 "NOSUCHDRUG" 10 = Ok []
  /\ fda_adverse_events_tool Sample.no_match 0 "NOSUCHDRUG" 10 = Ok "<json>".
Proof.
  split; [reflexivity|].
  destruct (fda_missing_results_is_empty Sample.no_match 0 "NOSUCHDRUG" 10
              _ eq_refl eq_refl) as [Hget Htool].
  split; [exact Hget|]. apply Htool. reflexivity.
Defined.

(** X4.  A report that is a dict without a ["patient"] key gives a record
    with empty drug_names, reactions and outcomes; its date and its
    identifier are those of the report, or "N/A" when the key is
    absent. *)
Theorem fda_report_without_patient fields :
  assoc "patient" fields = None ->
  FdaTool.extract (JObj fields)
  = Ok (report_record
          (default (JStr "N/A") (assoc "receivedate" fields))
          (default (JStr "N/A") (assoc "safetyreportid" fields))
          [] [] []).
Proof.
  intros Hp. unfold FdaTool.extract, FdaTool.patient_items. simpl.
  rewrite Hp. reflexivity.
Qed.

Lemma fda_report_without_patient_witness :
  assoc "patient" [("safetyreportid", JStr "42")] = None
  /\ FdaTool.extract Sample.bare_report
     = Ok (report_record (JStr "N/A") (JStr "42") [] [] []).
Proof.
  split; [reflexivity|].
  exact (fda_report_without_patient [("safetyreportid", JStr "42")] eq_refl).
Defined.

(** X5.  One item of ["results"] that is not a dict makes the whole
    lookup raise, whatever the other items are; the tool then returns
    the error text and none of the records. *)
Theorem fda_malformed_item_fails_lookup w tick drug_name limit fs items item :
  w_http_get_json w tick (FdaTool.url drug_name limit) = Ok (JObj fs) ->
  assoc "results" fs = Some (JArr items) ->
  In item items ->
  is_dict item = false ->
  exists e,
    FdaTool.get_adverse_events w tick drug_name limit = Raise e
    /\ fda_adverse_events_tool w tick drug_name limit
       = Ok ("Error retrieving FDA data: " ++ exn_str e).
Proof.
  intros Hhttp Hres Hin Hitem.
  assert (Hfail : is_ok (for_each FdaTool.extract items) = false).
  { apply (for_each_first_failure _ _ item Hin).
    destruct item; try reflexivity. discriminate. }
  destruct (for_each FdaTool.extract items) as [recs|e] eqn:He;
    [discriminate|].
  assert (H : FdaTool.get_adverse_events w tick drug_name limit = Raise e).
  { unfold FdaTool.get_adverse_events. rewrite Hhttp. simpl.
    rewrite Hres. simpl. exact He. }
  exists e. split; [exact H|].
  unfold fda_adverse_events_tool. rewrite H. reflexivity.
Qed.

Lemma fda_malformed_item_fails_lookup_witness :
  In (JStr "truncated") [Fixture.report "Tramadol HCl"; JStr "truncated"]
  /\ is_dict (JStr "truncated") = false
  /\ exists e,
       FdaTool.get_adverse_events Sample.damaged 0 "TRAMADOL" 2 = Raise e
       /\ fda_adverse_events_tool Sample.damaged 0 "TRAMADOL" 2
          = Ok ("Error retrieving FDA data: " ++ exn_str e).
Proof.
  split; [right; left; reflexivity|]. split; [reflexivity|].
  exact (fda_malformed_item_fails_lookup Sample.damaged 0 "TRAMADOL" 2
           _ _ (JStr "truncated") eq_refl eq_refl
           (or_intror (or_introl eq_refl)) eq_refl).
Defined.

(** ** Dispatch and the loop *)

(** X6.  A dispatch raises for three reasons only: the registry is empty
    ([ValueError]), the requested name is not registered ([KeyError]
    with the name), or [tool.invoke] rejects the arguments (the
    validation's own exception).  The registered tools themselves never
    make it raise. *)
Theorem call_tool_raises_only w st tick tc e :
  call_tool w st tick tc = Raise e ->
  (tools_by_name st = ∅
   /\ e = ValueError
            "Tools not initialized. Call initialize_agent_with_config() first.")
  \/ (tools_by_name st <> ∅
      /\ tools_by_name st !! tc_name tc = None
      /\ e = KeyError (tc_name tc))
  \/ (exists t,
        tools_by_name st !! tc_name tc = Some t
        /\ validates w t (tc_args tc) = false
        /\ match t with
           | Tool_fda => w_bind_fda w (tc_args tc) = Raise e
           | Tool_neo4j | Tool_pdf =>
               w_bind_question w (tool_name t) (tc_args tc) = Raise e
           end).
Proof.
  unfold call_tool.
  destruct (decide (tools_by_name st = ∅)) as [Hempty|Hne].
  { intros [= <-]. left. auto. }
  destruct (tools_by_name st !! tc_name tc) as [t|] eqn:Ht.
  2:{ intros [= <-]. right. left. auto. }
  intros H. right. right. exists t. split; [reflexivity|].
  destruct t; simpl in *.
  - destruct (w_bind_fda w (tc_args tc)) as [[d l]|e'] eqn:Hb; simpl in H.
    + destruct (fda_tool_returns w tick d l) as [text Htext].
      rewrite Htext in H. discriminate.
    + injection H as <-. auto.
  - destruct (w_bind_question w _ (tc_args tc)) as [q|e'] eqn:Hb; simpl in H.
    + destruct (neo4j_tool_returns w st tick q) as [text Htext].
      rewrite Htext in H. discriminate.
    + injection H as <-. auto.
  - destruct (w_bind_question w _ (tc_args tc)) as [q|e'] eqn:Hb; simpl in H.
    + destruct (pdf_tool_returns w st tick q) as [text Htext].
      rewrite Htext in H. discriminate.
    + injection H as <-. auto.
Qed.

Lemma call_tool_raises_only_witness :
  call_tool Fixture.quiet Fixture.ready 0
    (mkToolCall "pdf_search_tool" [("query", JStr "Revenue?")] "call_3")
  = Raise (ValidationError "question: field required")
  /\ exists t,
       tools_by_name Fixture.ready !! "pdf_search_tool" = Some t
       /\ validates Fixture.quiet t [("query", JStr "Revenue?")] = false.
Proof.
  assert (H : call_tool Fixture.quiet Fixture.ready 0
            (mkToolCall "pdf_search_tool" [("query", JStr "Revenue?")] "call_3")
          = Raise (ValidationError "question: field required"))
    by (vm_compute; reflexivity).
  split; [exact H|].
  destruct (call_tool_raises_only _ _ _ _ _ H)
    as [[Hempty _]|[(_ & Hnone & _)|(t & Ht & Hv & _)]].
  - exfalso. revert Hempty.
    apply (registry_nonempty _ "pdf_search_tool" Tool_pdf).
    vm_compute; reflexivity.
  - exfalso. vm_compute in Hnone. discriminate.
  - exists t. split; [exact Ht|exact Hv].
Defined.

Lemma ids_of_results (calls : list tool_call) (results : list ToolMessage) :
  Forall2 (fun tc m => tm_tool_call_id m = tc_id tc) calls results ->
  map tm_tool_call_id results = map tc_id calls.
Proof. induction 1; simpl; congruence. Qed.

Lemma agent_loop_rounds w st fuel :
  forall emitted round tick messages a r,
    agent_loop fuel w st emitted round tick messages a = Some r ->
    exists tail, history r = (messages ++ tail)%list /\ rounds tail.
Proof.
  induction fuel as [|fuel IH]; intros emitted round tick messages a r Hr;
    [discriminate|].
  destruct (ai_tool_calls a) as [|tc rest] eqn:Hcalls.
  - rewrite agent_loop_final in Hr by assumption. injection Hr as <-.
    exists []. simpl. rewrite app_nil_r. split; [reflexivity|constructor].
  - assert (Hne : ai_tool_calls a <> []) by congruence.
    destruct (collect (dispatch w st tick (ai_tool_calls a)))
      as [results|e] eqn:Hres.
    + pose proof (ids_of_results _ _ (dispatch_ids _ _ _ _ _ Hres)) as Hids.
      rewrite (agent_loop_batch _ _ _ _ _ _ _ _ results) in Hr
        by assumption.
      cbv zeta in Hr.
      destruct (call_model w st round _) as [a'|e] eqn:Hnext.
      * destruct (IH _ _ _ _ _ _ Hr) as (tail & Hh & Ht).
        exists (AI a :: map Tool results ++ tail)%list. split.
        -- rewrite Hh, <- app_assoc. reflexivity.
        -- constructor; assumption.
      * injection Hr as <-. simpl.
        exists (AI a :: map Tool results ++ [])%list. split.
        -- rewrite app_nil_r. reflexivity.
        -- constructor; [assumption|assumption|constructor].
    + rewrite (agent_loop_abort _ _ _ _ _ _ _ _ e) in Hr by assumption.
      injection Hr as <-. simpl.
      exists []. rewrite app_nil_r. split; [reflexivity|constructor].
Qed.

(** X7.  Whatever way an execution of the entrypoint ends, the history
    it leaves is the list it was given followed by whole rounds: an
    assistant message that requests tools, then one tool message per
    request, in request order and with the request's call identifier.
    The given messages are never changed and the closing response is
    not part of the history. *)
Theorem history_is_input_then_rounds fuel w st messages r :
  agent fuel w st messages = Some r ->
  exists tail, history r = (messages ++ tail)%list /\ rounds tail.
Proof.
  unfold agent. destruct (call_model w st 0 messages) as [a|e].
  - apply agent_loop_rounds.
  - intros [= <-]. exists []. simpl. rewrite app_nil_r.
    split; [reflexivity|constructor].
Qed.

Lemma history_is_input_then_rounds_witness :
  exists r tail,
    agent 2 Fixture.two_rounds Fixture.ready [Human "What is reported?"]
    = Some r
    /\ history r = ([Human "What is reported?"] ++ tail)%list
    /\ rounds tail
    /\ length tail = 3%nat.
Proof.
  destruct (agent 2 Fixture.two_rounds Fixture.ready
              [Human "What is reported?"]) as [r|] eqn:Hr;
    [|vm_compute in Hr; discriminate].
  destruct (history_is_input_then_rounds _ _ _ _ _ Hr) as (tail & Hh & Ht).
  exists r, tail. split; [reflexivity|]. split; [exact Hh|].
  split; [exact Ht|].
  vm_compute in Hr. injection Hr as <-. simpl in Hh.
  injection Hh as <-. reflexivity.
Defined.

Lemma collect_length {A} (futs : list (res A)) results :
  collect futs = Ok results -> length results = length futs.
Proof.
  revert results. induction futs as [|f futs IH]; intros results H;
    simpl in H.
  - injection H as <-. reflexivity.
  - res_inv H. res_inv H. injection H as <-. simpl. f_equal. auto.
Qed.

Lemma dispatch_length w st calls :
  forall tick, length (dispatch w st tick calls) = length calls.
Proof. induction calls; intros tick; simpl; auto. Qed.

Lemma count_messages_app p (l1 l2 : list message) :
  count_messages p (l1 ++ l2)%list
  = (count_messages p l1 + count_messages p l2)%nat.
Proof. induction l1 as [|m l1 IH]; simpl; [reflexivity|]. rewrite IH. lia. Qed.

Lemma count_tool_results (results : list ToolMessage) :
  count_messages is_ai_message (map Tool results) = 0%nat
  /\ count_messages is_tool_message (map Tool results) = length results.
Proof.
  induction results as [|m results [IH1 IH2]]; simpl; [auto|].
  rewrite IH1, IH2. auto.
Qed.

Lemma agent_loop_history_kinds w st fuel :
  forall emitted round tick messages a r final,
    agent_loop fuel w st emitted round tick messages a = Some r ->
    outcome r = Ok final ->
    exists tail,
      history r = (messages ++ tail)%list
      /\ (count_messages is_ai_message tail + round = model_calls r)%nat
      /\ (count_messages is_tool_message tail + tick = dispatches r)%nat
      /\ (length tail + round + tick = model_calls r + dispatches r)%nat.
Proof.
  induction fuel as [|fuel IH];
    intros emitted round tick messages a r final Hr Hout; [discriminate|].
  destruct (ai_tool_calls a) as [|tc rest] eqn:Hcalls.
  - rewrite agent_loop_final in Hr by assumption. injection Hr as <-.
    exists []. simpl. rewrite app_nil_r. auto.
  - assert (Hne : ai_tool_calls a <> []) by congruence.
    destruct (collect (dispatch w st tick (ai_tool_calls a)))
      as [results|e] eqn:Hres.
    + pose proof (collect_length _ _ Hres) as Hlen.
      rewrite dispatch_length in Hlen.
      rewrite (agent_loop_batch _ _ _ _ _ _ _ _ results) in Hr
        by assumption.
      cbv zeta in Hr.
      destruct (call_model w st round _) as [a'|e] eqn:Hnext.
      * destruct (IH _ _ _ _ _ _ _ Hr Hout) as (tail & Hh & Hai & Htool & Hl).
        destruct (count_tool_results results) as [Hr1 Hr2].
        exists (AI a :: map Tool results ++ tail)%list.
        split; [rewrite Hh, <- app_assoc; reflexivity|].
        simpl. rewrite !count_messages_app, Hr1, Hr2.
        rewrite length_app, length_map. repeat split; lia.
      * injection Hr as <-. discriminate.
    + rewrite (agent_loop_abort _ _ _ _ _ _ _ _ e) in Hr by assumption.
      injection Hr as <-. discriminate.
Qed.

(** X8.  When the entrypoint returns a response, the history is the list
    it was given followed by a tail that holds one assistant message for
    every model invocation but the last, one tool message for every
    dispatch, and nothing else. *)
Theorem history_grows_with_calls fuel w st messages r final :
  agent fuel w st messages = Some r ->
  outcome r = Ok final ->
  exists tail,
    history r = (messages ++ tail)%list
    /\ count_messages is_ai_message tail = (model_calls r - 1)%nat
    /\ count_messages is_tool_message tail = dispatches r
    /\ length tail
       = (count_messages is_ai_message tail
          + count_messages is_tool_message tail)%nat
    /\ (1 <= model_calls r)%nat.
Proof.
  unfold agent. destruct (call_model w st 0 messages) as [a|e].
  - intros Hr Hout.
    destruct (agent_loop_history_kinds _ _ _ _ _ _ _ _ _ _ Hr Hout)
      as (tail & Hh & Hai & Htool & Hl).
    exists tail. split; [exact Hh|]. repeat split; lia.
  - intros [= <-]. discriminate.
Qed.

Lemma history_grows_with_calls_witness :
  exists r final tail,
    agent 2 Fixture.two_rounds Fixture.ready [Human "What is reported?"]
    = Some r
    /\ outcome r = Ok final
    /\ history r = ([Human "What is reported?"] ++ tail)%list
    /\ count_messages is_ai_message tail = 1%nat
    /\ count_messages is_tool_message tail = 2%nat
    /\ length tail = 3%nat.
Proof.
  destruct (agent 2 Fixture.two_rounds Fixture.ready
              [Human "What is reported?"]) as [r|] eqn:Hr;
    [|vm_compute in Hr; discriminate].
  assert (Hout : outcome r = Ok (Fixture.final "No events were retrieved.")).
  { vm_compute in Hr. injection Hr as <-. reflexivity. }
  assert (Hmc : model_calls r = 2%nat).
  { vm_compute in Hr. injection Hr as <-. reflexivity. }
  assert (Hd : dispatches r = 2%nat).
  { vm_compute in Hr. injection Hr as <-. reflexivity. }
  destruct (history_grows_with_calls _ _ _ _ _ _ Hr Hout)
    as (tail & Hh & Hai & Htool & Hlen & _).
  exists r, (Fixture.final "No events were retrieved."), tail.
  split; [reflexivity|]. split; [exact Hout|]. split; [exact Hh|].
  rewrite Hmc in Hai. rewrite Hd in Htool.
  split; [exact Hai|]. split; [exact Htool|].
  rewrite Hlen, Hai, Htool. reflexivity.
Defined.

(** ** Kinds and numbers of streamed events *)

Lemma count_kind_app kind (l1 l2 : list StepEvent) :
  count_kind kind (l1 ++ l2)%list
  = (count_kind kind l1 + count_kind kind l2)%nat.
Proof. unfold count_kind. rewrite filter_app, length_app. reflexivity. Qed.

Lemma count_kind_all kind (l : list StepEvent) :
  Forall (fun ev => step_type ev = kind) l -> count_kind kind l = length l.
Proof.
  unfold count_kind. induction 1 as [|ev l Hev _ IH]; [reflexivity|].
  rewrite filter_cons. destruct (decide _); [|contradiction].
  simpl. f_equal. exact IH.
Qed.

Lemma count_kind_other kind kind' (l : list StepEvent) :
  kind <> kind' ->
  Forall (fun ev => step_type ev = kind') l -> count_kind kind l = 0%nat.
Proof.
  intros Hne. unfold count_kind. induction 1 as [|ev l Hev _ IH];
    [reflexivity|].
  rewrite filter_cons. destruct (decide _); [congruence|exact IH].
Qed.

Lemma tool_steps_kind w futs :
  Forall (fun ev => step_type ev = "tool_execution")
    (omap (step_event w) (tool_steps futs)).
Proof.
  induction futs as [|[m|e] rest IH]; simpl; auto.
Qed.

Lemma tool_steps_all_returned w futs results :
  collect futs = Ok results ->
  length (omap (step_event w) (tool_steps futs)) = length futs.
Proof.
  revert results. induction futs as [|f futs IH]; intros results H;
    simpl in H; [reflexivity|].
  res_inv H. res_inv H. simpl. f_equal. eauto.
Qed.

Lemma decision_event_kind w a :
  ai_tool_calls a <> [] ->
  exists ev, step_event w (mkStep "call_model" (AI a)) = Some ev
             /\ step_type ev = "tool_decision".
Proof.
  intros Hne. unfold step_event. simpl.
  destruct (ai_tool_calls a) as [|tc rest]; [congruence|]. simpl.
  eexists. split; reflexivity.
Qed.

Lemma agent_loop_counts w st fuel :
  forall emitted round tick messages a r final pre,
    agent_loop fuel w st emitted round tick messages a = Some r ->
    outcome r = Ok final ->
    emitted = (pre ++ [mkStep "call_model" (AI a)])%list ->
    exists evs,
      stream_events w r = (evs ++ [closing_event (Ok final)])%list
      /\ (count_kind "tool_decision" evs + round
          = count_kind "tool_decision" (omap (step_event w) pre)
            + model_calls r)%nat
      /\ (count_kind "tool_execution" evs + tick
          = count_kind "tool_execution" (omap (step_event w) pre)
            + dispatches r)%nat
      /\ count_kind "final_answer" evs
         = count_kind "final_answer" (omap (step_event w) pre)
      /\ (length evs + round + tick
          = length (omap (step_event w) pre)
            + model_calls r + dispatches r)%nat.
Proof.
  induction fuel as [|fuel IH];
    intros emitted round tick messages a r final pre Hr Hout ->;
    [discriminate|].
  destruct (ai_tool_calls a) as [|tc rest] eqn:Hcalls.
  - rewrite agent_loop_final in Hr by assumption. injection Hr as <-.
    simpl in Hout. injection Hout as <-.
    exists (omap (step_event w) pre). split.
    + unfold stream_events. simpl. rewrite !omap_app. simpl.
      rewrite (final_event w a Hcalls). simpl.
      rewrite app_nil_r. reflexivity.
    + simpl. auto.
  - assert (Hne : ai_tool_calls a <> []) by congruence.
    destruct (decision_event_kind w a Hne) as (dev & Hdev & Hkind).
    destruct (collect (dispatch w st tick (ai_tool_calls a)))
      as [results|e] eqn:Hres.
    + rewrite (agent_loop_batch _ _ _ _ _ _ _ _ results) in Hr
        by assumption.
      cbv zeta in Hr.
      destruct (call_model w st round _) as [a'|e] eqn:Hnext.
      * destruct (IH _ _ _ _ _ _ _ _ Hr Hout eq_refl)
          as (evs & Hevs & Hdec & Hexec & Hfin & Hlen).
        exists evs. split; [exact Hevs|].
        rewrite !omap_app in Hdec, Hexec, Hfin, Hlen.
        simpl in Hdec, Hexec, Hfin, Hlen.
        rewrite Hdev in Hdec, Hexec, Hfin, Hlen.
        simpl in Hdec, Hexec, Hfin, Hlen.
        rewrite !count_kind_app in Hdec, Hexec, Hfin.
        rewrite !length_app in Hlen. simpl in Hlen.
        pose proof (tool_steps_kind w
                      (dispatch w st tick (ai_tool_calls a))) as Hk.
        assert (Hn1 : "tool_decision" <> "tool_execution") by discriminate.
        assert (Hn2 : "final_answer" <> "tool_execution") by discriminate.
        assert (Hn3 : "tool_execution" <> "tool_decision") by discriminate.
        assert (Hn4 : "final_answer" <> "tool_decision") by discriminate.
        rewrite (count_kind_other _ _ _ Hn1 Hk) in Hdec.
        rewrite (count_kind_other _ _ _ Hn2 Hk) in Hfin.
        rewrite (count_kind_all _ _ Hk) in Hexec.
        rewrite (tool_steps_all_returned _ _ _ Hres), dispatch_length
          in Hexec, Hlen.
        assert (Hdevs : Forall (fun ev => step_type ev = "tool_decision")
                          [dev]) by (repeat constructor; exact Hkind).
        rewrite (count_kind_all _ _ Hdevs) in Hdec.
        rewrite (count_kind_other _ _ _ Hn3 Hdevs) in Hexec.
        rewrite (count_kind_other _ _ _ Hn4 Hdevs) in Hfin.
        simpl in Hdec. repeat split; lia.
      * injection Hr as <-. discriminate.
    + rewrite (agent_loop_abort _ _ _ _ _ _ _ _ e) in Hr by assumption.
      injection Hr as <-. discriminate.
Qed.

(** X9.  When the entrypoint returns a response, the stream shows one
    [tool_decision] event for every model invocation but the last, one
    [tool_execution] event for every dispatch, exactly one
    [final_answer] event, and nothing else. *)
Theorem stream_counts_calls fuel w st messages r final :
  agent fuel w st messages = Some r ->
  outcome r = Ok final ->
  count_kind "tool_decision" (stream_events w r) = (model_calls r - 1)%nat
  /\ count_kind "tool_execution" (stream_events w r) = dispatches r
  /\ count_kind "final_answer" (stream_events w r) = 1%nat
  /\ length (stream_events w r) = (model_calls r + dispatches r)%nat.
Proof.
  unfold agent. destruct (call_model w st 0 messages) as [a|e].
  2:{ intros [= <-]. discriminate. }
  intros Hr Hout.
  destruct (agent_loop_counts _ _ _ _ _ _ _ _ _ _ [] Hr Hout eq_refl)
    as (evs & Hevs & Hdec & Hexec & Hfin & Hlen).
  assert (Hc1 : count_kind "tool_decision" [closing_event (Ok final)]
                = 0%nat) by reflexivity.
  assert (Hc2 : count_kind "tool_execution" [closing_event (Ok final)]
                = 0%nat) by reflexivity.
  assert (Hc3 : count_kind "final_answer" [closing_event (Ok final)]
                = 1%nat) by reflexivity.
  simpl in Hdec, Hexec, Hfin, Hlen.
  change (count_kind "tool_decision" []) with 0%nat in Hdec.
  change (count_kind "tool_execution" []) with 0%nat in Hexec.
  change (count_kind "final_answer" []) with 0%nat in Hfin.
  rewrite Hevs, !count_kind_app, Hc1, Hc2, Hc3, length_app. simpl.
  repeat split; lia.
Qed.

Lemma stream_counts_calls_witness :
  exists r,
    agent 2 Fixture.two_rounds Fixture.ready [Human "What is reported?"]
    = Some r
    /\ count_kind "tool_decision" (stream_events Fixture.two_rounds r) = 1%nat
    /\ count_kind "tool_execution" (stream_events Fixture.two_rounds r)
       = 2%nat
    /\ count_kind "final_answer" (stream_events Fixture.two_rounds r) = 1%nat.
Proof.
  destruct (agent 2 Fixture.two_rounds Fixture.ready
              [Human "What is reported?"]) as [r|] eqn:Hr;
    [|vm_compute in Hr; discriminate].
  assert (Hout : outcome r = Ok (Fixture.final "No events were retrieved.")).
  { vm_compute in Hr. injection Hr as <-. reflexivity. }
  assert (Hmc : model_calls r = 2%nat).
  { vm_compute in Hr. injection Hr as <-. reflexivity. }
  assert (Hd : dispatches r = 2%nat).
  { vm_compute in Hr. injection Hr as <-. reflexivity. }
  destruct (stream_counts_calls _ _ _ _ _ _ Hr Hout) as (H1 & H2 & H3 & _).
  exists r. split; [reflexivity|].
  rewrite H1, H2, H3, Hmc, Hd. repeat split; reflexivity.
Defined.

Lemma tool_steps_streamed w futs :
  Forall streamed_kind (omap (step_event w) (tool_steps futs)).
Proof.
  induction futs as [|[m|e] rest IH]; simpl; auto.
  constructor; [|exact IH]. split; simpl; auto.
Qed.

Lemma model_step_streamed w a ev :
  step_event w (mkStep "call_model" (AI a)) = Some ev -> streamed_kind ev.
Proof.
  unfold step_event. simpl.
  destruct (0 <? length (ai_tool_calls a))%nat; intros [= <-];
    split; simpl; auto.
Qed.

Lemma error_event_streamed msg : Forall streamed_kind [error_event msg].
Proof. constructor; [split; simpl; auto 6|constructor]. Qed.

Lemma agent_loop_kinds w st fuel :
  forall emitted round tick messages a r pre,
    agent_loop fuel w st emitted round tick messages a = Some r ->
    emitted = (pre ++ [mkStep "call_model" (AI a)])%list ->
    Forall streamed_kind (omap (step_event w) pre) ->
    Forall streamed_kind (stream_events w r).
Proof.
  induction fuel as [|fuel IH];
    intros emitted round tick messages a r pre Hr -> Hpre; [discriminate|].
  assert (Hcm : Forall streamed_kind
            (omap (step_event w) [mkStep "call_model" (AI a)])).
  { simpl. destruct (step_event w (mkStep "call_model" (AI a)))
      as [ev|] eqn:Hev; [|constructor].
    constructor; [|constructor]. eapply model_step_streamed; eauto. }
  destruct (ai_tool_calls a) as [|tc rest] eqn:Hcalls.
  - rewrite agent_loop_final in Hr by assumption. injection Hr as <-.
    unfold stream_events. simpl. rewrite !omap_app.
    apply Forall_app. split; [apply Forall_app; split; assumption|].
    simpl. constructor.
  - set (futs := dispatch w st tick (ai_tool_calls a)) in *.
    assert (Hpre' : Forall streamed_kind
              (omap (step_event w)
                 ((pre ++ [mkStep "call_model" (AI a)])
                  ++ tool_steps futs)%list)).
    { rewrite !omap_app. apply Forall_app. split.
      - apply Forall_app. split; assumption.
      - apply tool_steps_streamed. }
    assert (Herr : forall e,
              Forall streamed_kind
                [error_event ("Error running agent: " ++ exn_str e)])
      by (intros e; apply error_event_streamed).
    destruct (collect futs) as [results|e] eqn:Hres.
    + rewrite (agent_loop_batch _ _ _ _ _ _ _ _ results) in Hr
        by (congruence || assumption).
      cbv zeta in Hr. fold futs in Hr.
      destruct (call_model w st round _) as [a'|e] eqn:Hnext.
      * eapply IH; [exact Hr|reflexivity|exact Hpre'].
      * injection Hr as <-. unfold stream_events. simpl.
        apply Forall_app. split; [exact Hpre'|apply Herr].
    + rewrite (agent_loop_abort _ _ _ _ _ _ _ _ e) in Hr by assumption.
      fold futs in Hr. injection Hr as <-. unfold stream_events. simpl.
      apply Forall_app. split; [exact Hpre'|apply Herr].
Qed.

(** X10.  Every event that [run_agent_with_streaming] yields is of kind
    [tool_decision], [tool_execution], [final_answer] or [error], under
    the task name [call_model], [call_tool] or [error]; the initial kind
    [model_call] of the loop body is always overwritten and never
    streamed. *)
Theorem stream_kinds fuel w question c st ts :
  run_agent_with_streaming fuel w question c st = Some ts ->
  Forall (fun ev => streamed_kind ev /\ step_type ev <> "model_call")
    (returned ts).
Proof.
  unfold run_agent_with_streaming.
  assert (Hnot : forall ev, streamed_kind ev -> step_type ev <> "model_call").
  { intros ev [Hk _] Heq. rewrite Heq in Hk. simpl in Hk.
    repeat (destruct Hk as [Hk|Hk]; [discriminate|]). exact Hk. }
  assert (Hall : forall evs, Forall streamed_kind evs ->
            Forall (fun ev => streamed_kind ev
                              /\ step_type ev <> "model_call") evs).
  { intros evs Hevs. induction Hevs as [|ev evs Hev _ IH]; constructor;
      [split; auto|exact IH]. }
  destruct (ensure_initialized w c st) as [[[[]|e] st']|].
  - destruct (agent fuel w st' [Human question]) as [r|] eqn:Hr;
      [|discriminate].
    intros [= <-]. simpl. apply Hall.
    revert Hr. unfold agent.
    destruct (call_model w st' 0 [Human question]) as [a|e].
    + intros Hr.
      eapply (agent_loop_kinds w st' fuel _ _ _ _ _ _ []);
        [exact Hr|reflexivity|constructor].
    + intros [= <-]. unfold stream_events. simpl.
      apply error_event_streamed.
  - intros [= <-]. simpl. apply Hall. apply error_event_streamed.
  - intros [= <-]. simpl. apply Hall. apply error_event_streamed.
Qed.

Lemma stream_kinds_witness :
  exists ts,
    run_agent_with_streaming 2 Fixture.two_rounds "What is reported?"
      Fixture.full_config (module_state ∅) = Some ts
    /\ Forall (fun ev => streamed_kind ev /\ step_type ev <> "model_call")
         (returned ts)
    /\ length (returned ts) = 4%nat.
Proof.
  destruct (run_agent_with_streaming 2 Fixture.two_rounds "What is reported?"
              Fixture.full_config (module_state ∅)) as [ts|] eqn:Hts;
    [|vm_compute in Hts; discriminate].
  exists ts. split; [reflexivity|].
  split; [exact (stream_kinds _ _ _ _ _ _ Hts)|].
  vm_compute in Hts. injection Hts as <-. reflexivity.
Defined.

(** ** Configuration life cycle *)

Lemma ensure_initialized_marks w c st st' :
  ensure_initialized w c st = Some (Ok tt, st') -> _initialized st' = true.
Proof.
  unfold ensure_initialized.
  destruct (all_config c && negb (_initialized st)).
  - intros [= H]. eapply initialize_completed; eauto.
  - destruct (_initialized st) eqn:H; simpl; [|discriminate].
    intros [= <-]. exact H.
Qed.






Lemma reachable_equipped st :
  reachable st -> _initialized st = true -> equipped st.
Proof.
  induction 1 as [env|w k u n p st Hst IH|dc st st' Hst IH Hreset].
  - discriminate.
  - unfold initialize_agent_with_config.
    destruct (_initialized st) eqn:Hinit; [auto|].
    destruct (environ_set _ k _); [|simpl; congruence].
    destruct (environ_set _ u _); [|simpl; congruence].
    destruct (environ_set _ n _); [|simpl; congruence].
    destruct (environ_set _ p _); [|simpl; congruence].
    intros _. repeat split; simpl; eauto.
  - unfold reset_agent in Hreset. res_inv Hreset.
    injection Hreset as <-. discriminate.
Qed.

(** X12.  In every state that the module's functions can produce from
    the import state, a turn that gets past the configuration test runs
    on a state where the model, both tool objects and the registry of
    the three tools are set: the guards "Model not initialized" and
    "Tools not initialized" and the checks for a missing tool object
    cannot fire there. *)
Theorem turn_runs_equipped w c st st' :
  reachable st ->
  ensure_initialized w c st = Some (Ok tt, st') ->
  equipped st'
  /\ tools_by_name st' <> ∅
  /\ exists m,
       model st' = Some m
       /\ forall w' round h,
            call_model w' st' round h =
              w_chat w' m
                ["fda_adverse_events_tool"; "neo4j_query_tool";
                 "pdf_search_tool"]
                round (System system_prompt :: h).
Proof.
  intros Hreach Hens.
  assert (Heq : equipped st').
  { apply reachable_equipped.
    - revert Hens. unfold ensure_initialized.
      destruct (all_config c && negb (_initialized st)).
      + intros [= H].
        replace st' with
          (snd (initialize_agent_with_config w
                  (given (openai_api_key c)) (given (neo4j_uri c))
                  (given (neo4j_username c)) (given (neo4j_password c)) st))
          by (rewrite H; reflexivity).
        constructor. exact Hreach.
      + destruct (negb (_initialized st)); [discriminate|].
        intros [= <-]. exact Hreach.
    - eapply ensure_initialized_marks; eauto. }
  split; [exact Heq|].
  destruct Heq as ([m Hm] & _ & _ & Htools & Hreg).
  split.
  - rewrite Hreg. apply (registry_nonempty _ "pdf_search_tool" Tool_pdf).
    apply registry_lookup_pdf.
  - exists m. split; [exact Hm|].
    intros w' round h. unfold call_model. rewrite Hm, Htools. reflexivity.
Qed.

Lemma turn_runs_equipped_witness :
  reachable (module_state ∅)
  /\ ensure_initialized Fixture.quiet Fixture.full_config (module_state ∅)
     = Some (Ok tt, Fixture.ready)
  /\ equipped Fixture.ready.
Proof.
  assert (Hr : reachable (module_state ∅)) by constructor.
  assert (He : ensure_initialized Fixture.quiet Fixture.full_config
                 (module_state ∅) = Some (Ok tt, Fixture.ready))
    by (vm_compute; reflexivity).
  split; [exact Hr|]. split; [exact He|].
  exact (proj1 (turn_runs_equipped _ _ _ _ Hr He)).
Defined.

Lemma reset_agent_returned driver_close st st' :
  reset_agent driver_close st = Ok st' ->
  st' = module_state (environ st) /\ _initialized st' = false.
Proof.
  unfold reset_agent. intros H. res_inv H. injection H as <-. auto.
Qed.

(** X13.  [reset_agent] raises exactly when the graph tool holds a
    driver whose [close] raises, and then with that exception, before
    any global is reassigned; in every other case it returns the import
    state over the current environment, whatever the globals were. *)
Theorem reset_agent_outcomes driver_close st :
  (forall e,
     reset_agent driver_close st = Raise e <->
     exists nt d,
       neo4j_tool st = Some nt
       /\ Neo4jTool.driver nt = Some d
       /\ driver_close d = Raise e)
  /\ (forall st',
        reset_agent driver_close st = Ok st' ->
        st' = module_state (environ st) /\ _initialized st' = false).
Proof.
  unfold reset_agent, Neo4jTool.close. split.
  - intros e. split.
    + destruct (neo4j_tool st) as [nt|]; simpl; [|discriminate].
      destruct (Neo4jTool.driver nt) as [d|] eqn:Hd; simpl; [|discriminate].
      destruct (driver_close d) as [[]|e'] eqn:Hc; simpl; [discriminate|].
      intros [= <-]. eauto.
    + intros (nt & d & -> & Hd & Hc). simpl. rewrite Hd, Hc. reflexivity.
  - intros st' H. fold (Neo4jTool.close driver_close) in H.
    apply (reset_agent_returned driver_close). exact H.
Qed.

Lemma reset_agent_outcomes_witness :
  (exists nt d,
     neo4j_tool Sample.equipped_state = Some nt
     /\ Neo4jTool.driver nt = Some d
     /\ Sample.stuck_close d = Raise (ExternalError "driver already closed"))
  /\ reset_agent Sample.stuck_close Sample.equipped_state
     = Raise (ExternalError "driver already closed")
  /\ reset_agent Sample.stuck_close Fixture.ready
     = Ok (module_state (environ Fixture.ready)).
Proof.
  assert (H : exists nt d,
     neo4j_tool Sample.equipped_state = Some nt
     /\ Neo4jTool.driver nt = Some d
     /\ Sample.stuck_close d = Raise (ExternalError "driver already closed")).
  { eexists _, _. split; [vm_compute; reflexivity|].
    split; reflexivity. }
  split; [exact H|]. split.
  - exact (proj2 (proj1 (reset_agent_outcomes Sample.stuck_close
                           Sample.equipped_state) _) H).
  - vm_compute. reflexivity.
Defined.

(** X14.  After a reset that returned, a turn with an incomplete
    configuration is refused with the configuration text, and a turn
    with a complete one sets the agent up anew: the state it runs on is
    the one setup builds from the import state, so the model, the tool
    objects and the registry owe nothing to the globals that were there
    before the reset. *)
Theorem reset_then_turn driver_close st st' w c :
  reset_agent driver_close st = Ok st' ->
  (all_config c = false ->
   forall fuel question,
     run_agent fuel w question c st'
     = Some (mkTurn not_initialized_error st' 0%nat 0%nat))
  /\ (all_config c = true ->
      ensure_initialized w c st'
      = Some (initialize_agent_with_config w
                (given (openai_api_key c)) (given (neo4j_uri c))
                (given (neo4j_username c)) (given (neo4j_password c))
                (module_state (environ st)))
      /\ forall st2 driver_close2 st2',
           environ st2 = environ st ->
           reset_agent driver_close2 st2 = Ok st2' ->
           ensure_initialized w c st2' = ensure_initialized w c st').
Proof.
  intros Hreset.
  destruct (reset_agent_returned _ _ _ Hreset) as [-> Hinit].
  split.
  - intros Hc fuel question. unfold run_agent, ensure_initialized.
    rewrite Hc. reflexivity.
  - intros Hc. split.
    + unfold ensure_initialized. rewrite Hc. reflexivity.
    + intros st2 dc2 st2' Henv Hreset2.
      destruct (reset_agent_returned _ _ _ Hreset2) as [-> _].
      rewrite Henv. reflexivity.
Qed.

Lemma reset_then_turn_witness :
  reset_agent Sample.clean_close Sample.equipped_state
  = Ok (module_state (environ Sample.equipped_state))
  /\ run_agent 3 Fixture.quiet "Anything?" Fixture.no_password
       (module_state (environ Sample.equipped_state))
     = Some (mkTurn not_initialized_error
               (module_state (environ Sample.equipped_state)) 0%nat 0%nat).
Proof.
  assert (Hr : reset_agent Sample.clean_close Sample.equipped_state
               = Ok (module_state (environ Sample.equipped_state)))
    by (vm_compute; reflexivity).
  split; [exact Hr|].
  apply (proj1 (reset_then_turn _ _ _ Fixture.quiet Fixture.no_password Hr)).
  reflexivity.
Defined.

(** ** Setting up the back ends *)

(** X15.  Setup builds the vector store from the first candidate path
    that exists, and from that one only: the store is set, with that
    path, exactly when building from it succeeds; when it raises the
    store stays unset even if a later candidate exists.  When no
    candidate exists nothing is built. *)
Theorem pdf_store_from_first_existing_path w env :
  let pt := PDFTool.new env in
  match find (w_path_exists w) (possible_paths w) with
  | Some p =>
      In p (possible_paths w)
      /\ w_path_exists w p = true
      /\ PDFTool.vector_store (init_pdf w pt)
         = match w_build_vector_store w p (PDFTool.embeddings pt) with
           | Ok _ => Some (mkFAISS p (PDFTool.embeddings pt))
           | Raise _ => None
           end
  | None =>
      PDFTool.vector_store (init_pdf w pt) = None
      /\ Forall (fun p => w_path_exists w p = false) (possible_paths w)
  end.
Proof.
  intros pt. unfold init_pdf.
  destruct (find (w_path_exists w) (possible_paths w)) as [p|] eqn:Hfind.
  - apply find_some in Hfind as [Hin Hex].
    split; [exact Hin|]. split; [exact Hex|].
    unfold PDFTool.create_vector_store.
    destruct (w_build_vector_store w p _); reflexivity.
  - split; [reflexivity|].
    apply Forall_forall. intros p Hp.
    apply list_elem_of_In in Hp.
    exact (find_none _ _ Hfind p Hp).
Qed.

(** The connected world finds the PDF at the path derived from the
    source directory and indexes it. *)
Example pdf_store_in_connected_world :
  option_map PDFTool.vector_store (pdf_tool Sample.equipped_state)
  = Some (Some (mkFAISS "/app/src/tools/pdf_data/report_2023_2024.pdf"
                  (Some (mkOpenAIEmbeddings "text-embedding-3-large"
                           (Some "sk-test"))))).
Proof. vm_compute. reflexivity. Qed.

(** X16.  After setup the graph tool has a QA chain exactly when the
    driver could be created, connectivity was verified, the graph
    wrapper could be built, the API key in the environment is not empty
    and the chain could be built from it; in every other case the tool
    answers every question with "Error: QA chain not initialized". *)
Theorem qa_chain_ready_iff w env :
  let nt := init_neo4j w env (Neo4jTool.new env) in
  let uri := env !! "NEO4J_URI" in
  let auth := (env !! "NEO4J_USERNAME", env !! "NEO4J_PASSWORD") in
  let key := env !! "OPENAI_API_KEY" in
  let g := mkNeo4jGraph uri (fst auth) (snd auth) in
  (is_Some (Neo4jTool.chain nt) <->
   is_ok (w_driver w uri auth) = true
   /\ is_ok (w_verify_connectivity w (mkDriver uri auth)) = true
   /\ is_ok (w_graph w uri (fst auth) (snd auth)) = true
   /\ truthy key = true
   /\ is_ok (w_chain_from_llm w (mkChatOpenAI "gpt-3.5-turbo" key) g) = true)
  /\ (Neo4jTool.chain nt = None ->
      forall w' tick question,
        Neo4jTool.ask_question w' tick nt question
        = JStr "Error: QA chain not initialized").
Proof.
  cbv zeta. split.
  - unfold init_neo4j, Neo4jTool.initialize_qa_chain, Neo4jTool.connect.
    simpl.
    destruct (w_driver w _ _); simpl.
    2:{ split; [intros [x Hx]; discriminate|intros [H _]; discriminate]. }
    destruct (w_verify_connectivity w _); simpl.
    2:{ split; [intros [x Hx]; discriminate
               |intros (_ & H & _); discriminate]. }
    destruct (w_graph w _ _ _); simpl.
    2:{ split; [intros [x Hx]; discriminate
               |intros (_ & _ & H & _); discriminate]. }
    destruct (truthy (env !! "OPENAI_API_KEY")) eqn:Hkey; simpl.
    2:{ split; [intros [x Hx]; discriminate
               |intros (_ & _ & _ & H & _); discriminate]. }
    destruct (w_chain_from_llm w _ _); simpl.
    + split; [intros _; repeat split; reflexivity|intros _; eauto].
    + split; [intros [x Hx]; discriminate
             |intros (_ & _ & _ & _ & H); discriminate].
  - intros Hnone w' tick question. unfold Neo4jTool.ask_question.
    rewrite Hnone. reflexivity.
Qed.

Lemma qa_chain_ready_iff_witness :
  is_Some (Neo4jTool.chain
             (init_neo4j Sample.connected
                (configured_env "sk-test" "bolt://localhost:7687" "neo4j"
                   "secret" ∅)
                (Neo4jTool.new
                   (configured_env "sk-test" "bolt://localhost:7687" "neo4j"
                      "secret" ∅))))
  /\ neo4j_query_tool Sample.connected Sample.equipped_state 0 "Who makes it?"
     = Ok "Pfizer".
Proof.
  split.
  - apply (proj1 (qa_chain_ready_iff Sample.connected
                    (configured_env "sk-test" "bolt://localhost:7687"
                       "neo4j" "secret" ∅))).
    repeat split; reflexivity.
  - vm_compute. reflexivity.
Defined.

(** ** The chat handler of the application *)

Lemma strip_empty is_space : App.strip is_space "" = "".
Proof. reflexivity. Qed.

Lemma stripped_nonempty is_space s :
  negb (String.eqb (App.strip is_space s) "") = true ->
  truthy (Some s) = true.
Proof.
  destruct s as [|c s]; simpl; [discriminate|reflexivity].
Qed.

Lemma lstrip_blank is_space s :
  forallb is_space (list_ascii_of_string s) = true ->
  App.lstrip is_space s = "".
Proof.
  induction s as [|c s IH]; simpl; [reflexivity|].
  destruct (is_space c); simpl; [exact IH|discriminate].
Qed.

Lemma complete_session_config is_space ss :
  App.config_complete is_space ss = true ->
  all_config (App.session_config ss) = true.
Proof.
  intros Hc. unfold App.config_complete in Hc. cbn [forallb] in Hc.
  unfold all_config, App.session_config.
  cbn [forallb openai_api_key neo4j_uri neo4j_username neo4j_password].
  repeat (apply andb_prop in Hc as [?H Hc]).
  rewrite !(stripped_nonempty is_space) by assumption. reflexivity.
Qed.

(** X17.  The test that enables the chat input is stricter than the
    test of the agent: when the four fields are non-blank after
    stripping, the configuration handed to the agent is complete, so the
    handler never receives the configuration-required event; a field
    made only of white space disables the chat although the agent would
    have accepted it. *)
Theorem ui_gate_implies_agent_gate is_space ss :
  (App.config_complete is_space ss = true ->
   all_config (App.session_config ss) = true
   /\ forall w st, is_Some (ensure_initialized w (App.session_config ss) st))
  /\ (App.ss_neo4j_password ss <> "" ->
      forallb is_space (list_ascii_of_string (App.ss_neo4j_password ss))
      = true ->
      App.config_complete is_space ss = false
      /\ truthy (neo4j_password (App.session_config ss)) = true).
Proof.
  split.
  - intros Hc.
    assert (Hall : all_config (App.session_config ss) = true)
      by (eapply complete_session_config; eauto).
    split; [exact Hall|].
    intros w st. unfold ensure_initialized. rewrite Hall. simpl.
    destruct (_initialized st); simpl; eauto.
  - intros Hne Hblank. split.
    + unfold App.config_complete. simpl. unfold App.strip at 4.
      rewrite (lstrip_blank _ _ Hblank). simpl.
      rewrite !andb_false_r. reflexivity.
    + simpl. destruct (App.ss_neo4j_password ss); [congruence|reflexivity].
Qed.

Lemma ui_gate_implies_agent_gate_witness :
  App.config_complete Sample.is_space Sample.session = true
  /\ all_config (App.session_config Sample.session) = true
  /\ App.config_complete Sample.is_space Sample.blank_password = false
  /\ all_config (App.session_config Sample.blank_password) = true.
Proof.
  split; [reflexivity|]. split.
  - exact (proj1 (proj1 (ui_gate_implies_agent_gate Sample.is_space
                           Sample.session) eq_refl)).
  - split; [|reflexivity].
    apply (proj2 (ui_gate_implies_agent_gate Sample.is_space
                    Sample.blank_password)); [discriminate|reflexivity].
Defined.

Lemma consume_steps (events : list StepEvent) :
  forall answer acc,
    fold_left
      (fun acc step_data =>
         let steps := (snd acc ++ [step_data])%list in
         if is_final step_data then (content step_data, steps)
         else (fst acc, steps))
      events (answer, acc)
    = (match last (filter (fun ev => is_final ev = true) events) with
       | Some ev => content ev
       | None => answer
       end, (acc ++ events)%list).
Proof.
  induction events as [|ev events IH]; intros answer acc; simpl.
  - rewrite app_nil_r. reflexivity.
  - destruct (is_final ev) eqn:Hev; rewrite IH, filter_cons, <- app_assoc.
    + rewrite decide_True by exact Hev. rewrite last_cons.
      destruct (last (filter _ events)); reflexivity.
    + rewrite decide_False by congruence. reflexivity.
Qed.

Lemma consume_closed (evs : list StepEvent) ev :
  Forall intermediate evs -> is_final ev = true ->
  App.consume (evs ++ [ev])%list = (content ev, (evs ++ [ev])%list).
Proof.
  intros Hevs Hev. unfold App.consume. rewrite consume_steps.
  rewrite (single_final _ _ Hevs Hev). reflexivity.
Qed.

(** Both entry points run the same execution; the stream closes with
    the text that [run_agent] returns. *)
Lemma streaming_shape fuel w question c st ts :
  run_agent_with_streaming fuel w question c st = Some ts ->
  exists t evs ev,
    run_agent fuel w question c st = Some t
    /\ returned ts = (evs ++ [ev])%list
    /\ Forall intermediate evs
    /\ is_final ev = true
    /\ content ev = returned t
    /\ state_after ts = state_after t.
Proof.
  unfold run_agent, run_agent_with_streaming.
  destruct (ensure_initialized w c st) as [[[[]|e] st']|].
  - destruct (agent fuel w st' [Human question]) as [r|] eqn:Hr;
      [|discriminate].
    intros [= <-].
    destruct (agent_stream _ _ _ _ _ Hr) as (evs & Hevs & Hquiet).
    eexists _, evs, (closing_event (outcome r)).
    split; [reflexivity|]. simpl. split; [exact Hevs|].
    split; [exact Hquiet|]. split; [apply closing_event_final|].
    split; [|reflexivity]. rewrite closing_event_content.
    destruct (outcome r); reflexivity.
  - intros [= <-].
    eexists _, [], (error_event ("Error running agent: " ++ exn_str e)).
    split; [reflexivity|]. simpl. repeat split; constructor.
  - intros [= <-].
    eexists _, [], (error_event not_initialized_error).
    split; [reflexivity|]. simpl. repeat split; constructor.
Qed.



(** X19.  The stored traces stay in step with the chat: if every stored
    trace belongs to an assistant message and ends with the event
    carrying that message's text, this is still so after any submitted
    prompt and after clearing the chat; a chat that is empty with no
    traces starts that way. *)
Theorem traces_stay_matched is_space ss :
  App.traces_match ss ->
  (forall fuel w prompt st ss' st',
     App.handle_prompt is_space fuel w prompt ss st = Some (ss', st') ->
     App.traces_match ss')
  /\ App.traces_match (App.clear_chat ss).
Proof.
  intros Hinv. split.
  2:{ intros i steps H. simpl in H. rewrite lookup_empty in H.
      discriminate. }
  intros fuel w prompt st ss' st'. unfold App.handle_prompt.
  destruct (App.config_complete is_space ss && negb (String.eqb prompt ""));
    [|intros [= <- <-]; exact Hinv].
  destruct (run_agent_with_streaming fuel w prompt (App.session_config ss) st)
    as [ts|] eqn:Hts; [|discriminate].
  destruct (streaming_shape _ _ _ _ _ _ Hts)
    as (t & evs & ev & _ & Hevs & Hquiet & Hfinal & _ & _).
  rewrite Hevs, (consume_closed _ _ Hquiet Hfinal).
  intros [= <- <-]. intros i steps. simpl.
  rewrite !length_app. simpl.
  replace (length (App.messages ss) + 1 + 1 - 1)%nat
    with (length (App.messages ss) + 1)%nat by lia.
  destruct (decide (i = (length (App.messages ss) + 1)%nat)) as [->|Hne].
  - rewrite lookup_insert_eq. intros [= <-].
    exists evs, ev. split; [reflexivity|].
    rewrite <- app_assoc. rewrite lookup_app_r by lia.
    replace (length (App.messages ss) + 1 - length (App.messages ss))%nat
      with 1%nat by lia.
    reflexivity.
  - rewrite lookup_insert_ne by congruence. intros Hi.
    destruct (Hinv i steps Hi) as (evs' & ev' & Hsteps & Hmsg).
    exists evs', ev'. split; [exact Hsteps|].
    rewrite <- app_assoc. rewrite lookup_app_l; [exact Hmsg|].
    eapply lookup_lt_Some; eauto.
Qed.

Lemma traces_stay_matched_witness :
  App.traces_match Sample.session
  /\ exists ss' st',
       App.handle_prompt Sample.is_space 2 Fixture.two_rounds
         "What is reported for TRAMADOL?" Sample.session (module_state ∅)
       = Some (ss', st')
       /\ App.traces_match ss'.
Proof.
  assert (H0 : App.traces_match Sample.session).
  { intros i steps H. simpl in H. rewrite lookup_empty in H. discriminate. }
  split; [exact H0|].
  destruct (App.handle_prompt Sample.is_space 2 Fixture.two_rounds
              "What is reported for TRAMADOL?" Sample.session
              (module_state ∅)) as [[ss' st']|] eqn:H;
    [|vm_compute in H; discriminate].
  exists ss', st'. split; [reflexivity|].
  exact (proj1 (traces_stay_matched Sample.is_space Sample.session H0)
           _ _ _ _ _ _ H).
Defined.
